(** * The soak-test launcher of the Ops Agent integration tests

    A shallow embedding of [integration_test/soak_test/cmd/launcher/main.go]:
    the package-level variables, the scripts and the agent configuration
    that [mainErr] renders with [fmt.Sprintf], the TTL label computed with
    [time.ParseDuration] and [strconv.Itoa], and the sequence of calls
    [mainErr] makes into the [gce] and [agents] packages.

    Go strings are byte sequences; they are modelled as [string] (a list of
    8-bit [ascii] characters).  [int64]/[uint64] values are modelled as [Z]
    with the wrap-around written out. *)

From Stdlib Require Import ZArith List String Ascii Bool Lia DecimalString.
From Stdlib Require DecimalPos.
Import ListNotations.

Local Open Scope string_scope.
Local Open Scope Z_scope.

(** ** Characters and strings *)

(** The double quote, the backslash and the line feed, by code. *)
Definition dq : string := String (ascii_of_nat 34) EmptyString.
Definition bs : string := String (ascii_of_nat 92) EmptyString.
Definition nl : string := String (ascii_of_nat 10) EmptyString.

(** A Go raw string literal spanning several lines, every line terminated
    by a line feed. *)
Fixpoint unlines (ls : list string) : string :=
  match ls with
  | [] => EmptyString
  | l :: rest => l ++ nl ++ unlines rest
  end.

(** [strings.Contains(s, sub)]. *)
Fixpoint contains (sub s : string) : bool :=
  if prefix sub s then true
  else match s with
       | EmptyString => false
       | String _ s' => contains sub s'
       end.

(** [strings.HasSuffix(s, suf)]. *)
Definition hasSuffix (suf s : string) : bool :=
  let n := String.length s in
  let k := String.length suf in
  (k <=? n)%nat && String.eqb (substring (n - k) k s) suf.


(** ** fmt.Sprintf, for the verbs the launcher uses

    [%v] and [%s] applied to a string operand print the operand as it is.
    A verb without an operand prints [%!v(MISSING)], as in Go.  No call in
    the launcher passes more operands than verbs. *)
Fixpoint Sprintf (format : string) (args : list string) : string :=
  match format with
  | String "%" (String c rest) =>
      if (Ascii.eqb c "v" || Ascii.eqb c "s")%bool then
        match args with
        | a :: args' => a ++ Sprintf rest args'
        | [] => "%!" ++ String c "(MISSING)" ++ Sprintf rest []
        end
      else String "%" (String c (Sprintf rest args))
  | String a rest => String a (Sprintf rest args)
  | EmptyString => EmptyString
  end.

(** ** Errors

    Go [error] values, kept structured: the message text of an error is not
    rendered, its origin and operands are. *)
Inductive error : Type :=
| time_invalidDuration (orig : string)
    (* errors.New("time: invalid duration " + quote(orig)) *)
| time_missingUnit (orig : string)
    (* errors.New("time: missing unit in duration " + quote(orig)) *)
| time_unknownUnit (u orig : string)
    (* errors.New("time: unknown unit " + quote(u) + " in duration " + quote(orig)) *)
| fmt_Errorf (format : string) (operands : list string) (wrapped : error)
    (* fmt.Errorf(format, operands..., wrapped), the last verb being %w *)
| pkgError (msg : string).
    (* an error value produced inside package gce or package agents *)

(** A Go result pair [(A, error)]: [inl a] stands for [(a, nil)]. *)
Definition result (A : Type) : Type := (A + error)%type.

(** ** Package time: durations *)

Definition Duration : Type := Z.            (* int64, in nanoseconds *)

Definition Nanosecond : Duration := 1.
Definition Microsecond : Duration := 1000 * Nanosecond.
Definition Millisecond : Duration := 1000 * Microsecond.
Definition Second : Duration := 1000 * Millisecond.
Definition Minute : Duration := 60 * Second.
Definition Hour : Duration := 60 * Minute.

(** [uint64] arithmetic wraps modulo 2^64. *)
Definition wrap64 (z : Z) : Z := z mod 2 ^ 64.

(** Conversion of a [uint64] to [int64] (two's complement). *)
Definition to_int64 (z : Z) : Z := (z + 2 ^ 63) mod 2 ^ 64 - 2 ^ 63.

Definition isDigit (c : ascii) : bool :=
  let n := nat_of_ascii c in ((48 <=? n) && (n <=? 57))%nat.

Definition digitVal (c : ascii) : Z := Z.of_nat (nat_of_ascii c) - 48.

(** [leadingInt]: consumes the leading [0-9]* of [s]; [None] is
    [errLeadingInt] (overflow).  [x] is the value accumulated so far. *)
Fixpoint leadingInt_from (x : Z) (s : string) : option (Z * string) :=
  match s with
  | String c rest =>
      if isDigit c then
        if x >? 2 ^ 63 / 10 then None
        else
          let x' := wrap64 (x * 10 + digitVal c) in
          if x' >? 2 ^ 63 then None else leadingInt_from x' rest
      else Some (x, s)
  | EmptyString => Some (x, s)
  end.

Definition leadingInt (s : string) : option (Z * string) := leadingInt_from 0 s.

(** [leadingFraction]: consumes the leading [0-9]* of [s] and stops
    accumulating precision on overflow.  [scale] is a power of ten not
    above 10^19, which [float64] holds exactly; it is kept as an integer. *)
Fixpoint leadingFraction_from (x scale : Z) (overflow : bool) (s : string)
  : Z * Z * string :=
  match s with
  | String c rest =>
      if isDigit c then
        if overflow then leadingFraction_from x scale overflow rest
        else if x >? (2 ^ 63 - 1) / 10 then leadingFraction_from x scale true rest
        else
          let y := wrap64 (x * 10 + digitVal c) in
          if y >? 2 ^ 63 then leadingFraction_from x scale true rest
          else leadingFraction_from y (scale * 10) false rest
      else (x, scale, s)
  | EmptyString => (x, scale, s)
  end.

Definition leadingFraction (s : string) : Z * Z * string :=
  leadingFraction_from 0 1 false s.

(** The unit of a duration term: the bytes up to the next ['.'] or digit,
    and what follows them ([u := s[:i]; s = s[i:]]). *)
Fixpoint spanUnit (s : string) : string * string :=
  match s with
  | String c rest =>
      if (Ascii.eqb c "." || isDigit c)%bool then (EmptyString, s)
      else let '(u, r) := spanUnit rest in (String c u, r)
  | EmptyString => (EmptyString, EmptyString)
  end.

(** The two spellings of the microsecond unit, in UTF-8. *)
Definition micro_sign_s : string :=
  String (ascii_of_nat 194) (String (ascii_of_nat 181) "s").   (* U+00B5 *)
Definition greek_mu_s : string :=
  String (ascii_of_nat 206) (String (ascii_of_nat 188) "s").   (* U+03BC *)

Definition unitMap (u : string) : option Z :=
  if String.eqb u "ns" then Some Nanosecond
  else if String.eqb u "us" then Some Microsecond
  else if String.eqb u micro_sign_s then Some Microsecond
  else if String.eqb u greek_mu_s then Some Microsecond
  else if String.eqb u "ms" then Some Millisecond
  else if String.eqb u "s" then Some Second
  else if String.eqb u "m" then Some Minute
  else if String.eqb u "h" then Some Hour
  else None.

Section ParseDuration.

(** [fracNanos f unit scale] stands for the one floating-point expression
    of [time.ParseDuration],
    [uint64(float64(f) * (float64(unit) / scale))]; it is evaluated only
    for a term with a non-zero fraction. *)
Variable fracNanos : Z -> Z -> Z -> Z.

(** The loop [for s != ""] of [time.ParseDuration]: [d] is the sum of the
    terms read so far.  Every iteration consumes at least one byte, so
    [fuel] above the length of [s] is never exhausted
    (see [parseTerms_fuel]). *)
Fixpoint parseTerms (fuel : nat) (orig s : string) (d : Z)
  : option (result Z) :=
  match fuel with
  | O => None
  | S fuel' =>
      match s with
      | EmptyString => Some (inl d)
      | String c0 _ =>
          if negb (Ascii.eqb c0 "." || isDigit c0) then
            Some (inr (time_invalidDuration orig))
          else
            match leadingInt s with
            | None => Some (inr (time_invalidDuration orig))
            | Some (v, s1) =>
                let pre := negb (String.length s =? String.length s1)%nat in
                let '(f, scale, s2, post) :=
                  match s1 with
                  | String "." s1' =>
                      let '(f, scale, s2) := leadingFraction s1' in
                      (f, scale, s2,
                       negb (String.length s1' =? String.length s2)%nat)
                  | _ => (0, 1, s1, false)
                  end in
                if (negb pre && negb post)%bool then
                  Some (inr (time_invalidDuration orig))
                else
                  let '(u, s3) := spanUnit s2 in
                  if (String.length u =? 0)%nat then
                    Some (inr (time_missingUnit orig))
                  else
                    match unitMap u with
                    | None => Some (inr (time_unknownUnit u orig))
                    | Some unit =>
                        if v >? 2 ^ 63 / unit then
                          Some (inr (time_invalidDuration orig))
                        else
                          let v1 := wrap64 (v * unit) in
                          let v2 :=
                            if f >? 0 then wrap64 (v1 + fracNanos f unit scale)
                            else v1 in
                          if ((f >? 0) && (v2 >? 2 ^ 63))%bool then
                            Some (inr (time_invalidDuration orig))
                          else
                            let d' := wrap64 (d + v2) in
                            if d' >? 2 ^ 63 then
                              Some (inr (time_invalidDuration orig))
                            else parseTerms fuel' orig s3 d'
                    end
            end
      end
  end.

(** [time.ParseDuration]. *)
Definition ParseDuration (orig : string) : result Duration :=
  let '(neg, s) :=
    match orig with
    | String c rest =>
        if (Ascii.eqb c "-" || Ascii.eqb c "+")%bool
        then (Ascii.eqb c "-", rest) else (false, orig)
    | EmptyString => (false, orig)
    end in
  if String.eqb s "0" then inl 0
  else if String.eqb s EmptyString then inr (time_invalidDuration orig)
  else
    match parseTerms (S (String.length s)) orig s 0 with
    | Some (inl d) =>
        if neg then inl (to_int64 (- to_int64 d))
        else if d >? 2 ^ 63 - 1 then inr (time_invalidDuration orig)
        else inl (to_int64 d)
    | Some (inr e) => inr e
    | None => inr (time_invalidDuration orig)
    end.

End ParseDuration.

(** [strconv.Itoa]: the decimal text of an [int]. *)
Definition Itoa (i : Z) : string := NilZero.string_of_int (Z.to_int i).

(** ** The data of packages context, log, gce and agents that the launcher
    handles *)

(** A [context.Context], as the expression that built it. *)
Inductive Context : Type :=
| context_Background
| context_WithTimeout (parent : Context) (timeout : Duration).

(** [log.Default()]: the standard logger, which writes to standard error. *)
Inductive Logger : Type := log_Default.

(** [gce.VMOptions], with the fields the launcher sets.  The two Go maps
    are written as association lists. *)
Record VMOptions : Type := {
  Platform : string;
  Name : string;
  MachineType : string;
  Labels : list (string * string);
  Metadata : list (string * string);
  ExtraCreateArguments : list string
}.

(** [*gce.VM]; the launcher reads its [Platform] only. *)
Record VM : Type := {
  vm_Platform : string;
  vm_Name : string
}.

(** [gce.CommandOutput]. *)
Record CommandOutput : Type := {
  Stdout : string;
  Stderr : string
}.

(** The package-level variables of the launcher. *)
Record Vars : Type := {
  logSizeInBytes : string;
  logRate : string;
  logPath : string;
  logGeneratorPath : string;
  ttl : string;
  distro : string;
  vmName : string;
  logGeneratorSource : string       (* //go:embed log_generator.py *)
}.

(** Their initial values: [getenv] is [os.Getenv], [embedded] the content of
    [log_generator.py]. *)
Definition initVars (getenv : string -> string) (embedded : string) : Vars :=
  {| logSizeInBytes := getenv "LOG_SIZE_IN_BYTES";
     logRate := getenv "LOG_RATE";
     logPath := "/tmp/tail_file";
     logGeneratorPath := "/log_generator.py";
     ttl := getenv "TTL";
     distro := getenv "DISTRO";
     vmName := getenv "VM_NAME";
     logGeneratorSource := embedded |}.

(** ** The texts the launcher renders *)

(** The format of the Ops Agent configuration. *)
Definition config_format : string :=
  unlines
    [ "logging:";
      "  receivers:";
      "    mylog_source:";
      "      type: files";
      "      include_paths:";
      "      - %s";
      "    generator_debug_logs:";
      "      type: files";
      "      include_paths:";
      "      - %s";
      "  exporters:";
      "    google:";
      "      type: google_cloud_logging";
      "  service:";
      "    pipelines:";
      "      my_pipeline:";
      "        receivers:";
      "        - mylog_source";
      "        - generator_debug_logs";
      "        exporters: [google]" ].

(** [config := fmt.Sprintf(..., logPath, debugLogPath)]. *)
Definition config (logPath debugLogPath : string) : string :=
  Sprintf config_format [logPath; debugLogPath].

(** The PowerShell script that installs Python on Windows. *)
Definition installPython : string :=
  unlines
    [ "$tempDir = " ++ dq ++ "/tmp" ++ dq;
      "mkdir $tempDir";
      EmptyString;
      "$pythonUrl = 'https://www.python.org/ftp/python/3.11.2/python-3.11.2.exe'";
      "$pythonInstallerName = $pythonUrl -replace '.*/'";
      "[Net.ServicePointManager]::SecurityProtocol = [Net.SecurityProtocolType]::Tls12";
      "$webClient = New-Object System.Net.WebClient";
      "$webClient.DownloadFile($pythonUrl, " ++ dq ++ "$tempDir" ++ bs
        ++ "$pythonInstallerName" ++ dq ++ ")";
      EmptyString;
      "$pythonInstallDir = " ++ dq ++ "$env:SystemDrive" ++ bs ++ "Python" ++ dq;
      "$pythonPath = " ++ dq ++ "$pythonInstallDir" ++ bs ++ "python.exe" ++ dq;
      "Start-Process " ++ dq ++ "$tempDir" ++ bs ++ "$pythonInstallerName" ++ dq
        ++ " -Wait -ArgumentList " ++ dq
        ++ "/quiet TargetDir=$pythonInstallDir InstallAllUsers=1" ++ dq ].

(** The format of the command that starts the log generator on Windows. *)
Definition startLogGenerator_windows_format : string :=
  "Invoke-WmiMethod -ComputerName . -Class Win32_Process -Name Create -ArgumentList "
  ++ dq ++ "$env:SystemDrive" ++ bs ++ "Python" ++ bs ++ "python.exe %v"
  ++ " --log-size-in-bytes=%v --log-rate=%v --log-write-type=file --file-path=%v"
  ++ dq.

(** The format of the command that starts the log generator elsewhere. *)
Definition startLogGenerator_posix_format : string :=
  unlines
    [ "nohup python3 %v " ++ bs;
      "  --log-size-in-bytes=" ++ dq ++ "%v" ++ dq ++ " " ++ bs;
      "  --log-rate=" ++ dq ++ "%v" ++ dq ++ " " ++ bs;
      "  --log-write-type=file " ++ bs;
      "  --file-path=" ++ dq ++ "%v" ++ dq ++ " " ++ bs;
      "  &> %v &" ].

(** [startLogGenerator], by the result of [gce.IsWindows(vm.Platform)]. *)
Definition startLogGenerator (windows : bool)
    (logGeneratorPath logSizeInBytes logRate logPath debugLogPath : string)
  : string :=
  if windows then
    Sprintf startLogGenerator_windows_format
      [logGeneratorPath; logSizeInBytes; logRate; logPath]
  else
    Sprintf startLogGenerator_posix_format
      [logGeneratorPath; logSizeInBytes; logRate; logPath; debugLogPath].

(** [options.Labels["ttl"]]: [strconv.Itoa(int(parsedTTL / time.Minute))].
    Go's integer division truncates toward zero; the quotient is below
    2^28 in absolute value, so the conversion to [int] keeps it. *)
Definition ttlLabel (parsedTTL : Duration) : string :=
  Itoa (Z.quot parsedTTL Minute).

(** ** What lies outside the launcher

    The functions of packages [gce] and [agents] that [mainErr] calls act on
    a world [W] (the cloud project, the virtual machine, the local key
    directory); each one takes the world and returns it changed, together
    with its Go results. *)
Record Externals (W : Type) : Type := {
  gce_IsWindows : string -> bool;
  gce_CreateInstance :
    forall (ctx : Context) (logger : Logger) (options : VMOptions),
      W -> result VM * W;
  agents_SetupOpsAgent :
    forall (ctx : Context) (logger : Logger) (vm : VM) (config : string),
      W -> option error * W;
  agents_InstallPackages :
    forall (ctx : Context) (logger : Logger) (vm : VM) (pkgs : list string),
      W -> option error * W;
  gce_RunRemotely :
    forall (ctx : Context) (logger : Logger) (vm : VM) (stdin command : string),
      W -> result CommandOutput * W;
  gce_UploadContent :
    forall (ctx : Context) (logger : Logger) (vm : VM) (content path : string),
      W -> option error * W;
  (* [false]: the cleanup failed and ended the process through log.Fatalf *)
  gce_CleanupKeysOrDie : W -> bool * W;
  time_Sleep : Duration -> W -> W;
  (* the floating-point expression of time.ParseDuration *)
  float64_fracNanos : Z -> Z -> Z -> Z
}.

Arguments gce_IsWindows {W}.
Arguments gce_CreateInstance {W}.
Arguments agents_SetupOpsAgent {W}.
Arguments agents_InstallPackages {W}.
Arguments gce_RunRemotely {W}.
Arguments gce_UploadContent {W}.
Arguments gce_CleanupKeysOrDie {W}.
Arguments time_Sleep {W}.
Arguments float64_fracNanos {W}.

(** What a run does, in order. *)
Inductive Event : Type :=
| EvCreateInstance (ctx : Context) (options : VMOptions) (r : result VM)
| EvSetupOpsAgent (ctx : Context) (vm : VM) (config : string) (r : option error)
| EvInstallPackages (ctx : Context) (vm : VM) (pkgs : list string)
    (r : option error)
| EvRunRemotely (ctx : Context) (vm : VM) (stdin command : string)
    (r : result CommandOutput)
| EvUploadContent (ctx : Context) (vm : VM) (content path : string)
    (r : option error)
| EvSleep (d : Duration)
| EvCancel
| EvCleanupKeysOrDie (returned : bool)
| EvLogFatal (e : error).

(** The program points of [mainErr], under the names of the run
    controller's states: a point is reached when the call before it has
    returned without error. *)
Inductive Stage : Type :=
| Created
| Provisioned
| AgentInstalled
| InterpreterReady
| ContentUploaded
| WorkloadLaunched
| Verified
| Failed.

Definition Stage_eqb (a b : Stage) : bool :=
  match a, b with
  | Created, Created | Provisioned, Provisioned
  | AgentInstalled, AgentInstalled | InterpreterReady, InterpreterReady
  | ContentUploaded, ContentUploaded | WorkloadLaunched, WorkloadLaunched
  | Verified, Verified | Failed, Failed => true
  | _, _ => false
  end.

(** The state of a run: the world, the calls made so far and the program
    points passed so far, both oldest first. *)
Record RunState (W : Type) : Type := {
  world : W;
  trace : list Event;
  stages : list Stage
}.

Arguments world {W}.
Arguments trace {W}.
Arguments stages {W}.

(** How a function that may end the process comes back. *)
Inductive Return : Type :=
| Returned (err : option error)
| Exited (status : Z).

(** A run from start to end. *)
Record Outcome (W : Type) : Type := {
  exitStatus : Z;
  final : RunState W
}.

Arguments exitStatus {W}.
Arguments final {W}.

Module Run.

(** Statements of [mainErr]: they change the run state and either go on
    with a value or return an error. *)
Definition M (W A : Type) : Type := RunState W -> result A * RunState W.

Definition ret {W A} (a : A) : M W A := fun st => (inl a, st).

Definition bind {W A B} (m : M W A) (k : A -> M W B) : M W B :=
  fun st =>
    match m st with
    | (inl a, st') => k a st'
    | (inr e, st') => (inr e, st')
    end.

(** [if err != nil { return wrap(err) }] around a pure result. *)
Definition try {W A} (r : result A) (wrap : error -> error) : M W A :=
  fun st =>
    match r with
    | inl a => (inl a, st)
    | inr e => (inr (wrap e), st)
    end.

(** The same around a statement. *)
Definition wrapping {W A} (m : M W A) (wrap : error -> error) : M W A :=
  fun st =>
    match m st with
    | (inl a, st') => (inl a, st')
    | (inr e, st') => (inr (wrap e), st')
    end.

Definition record {W} (ev : Event) (w : W) (st : RunState W) : RunState W :=
  {| world := w; trace := trace st ++ [ev]; stages := stages st |}.

Definition reach {W} (s : Stage) : M W unit :=
  fun st =>
    (inl tt,
     {| world := world st; trace := trace st; stages := stages st ++ [s] |}).

Definition of_err (r : option error) : result unit :=
  match r with
  | None => inl tt
  | Some e => inr e
  end.

End Run.

Declare Scope run_scope.
Delimit Scope run_scope with run.
Notation "x <- m ;; k" := (Run.bind m (fun x => k))
  (at level 61, m at next level, right associativity) : run_scope.
Notation "m ;; k" := (Run.bind m (fun _ => k))
  (at level 61, right associativity) : run_scope.

(** ** The launcher *)

Section Launcher.

Context {W : Type}.
Variable X : Externals W.
Variable g : Vars.

Local Open Scope run_scope.

(** The calls into packages [gce], [agents] and [time], as statements. *)

Definition CreateInstance (ctx : Context) (logger : Logger)
    (options : VMOptions) : Run.M W VM :=
  fun st =>
    let '(r, w) := gce_CreateInstance X ctx logger options (world st) in
    (r, Run.record (EvCreateInstance ctx options r) w st).

Definition SetupOpsAgent (ctx : Context) (logger : Logger) (vm : VM)
    (config : string) : Run.M W unit :=
  fun st =>
    let '(r, w) := agents_SetupOpsAgent X ctx logger vm config (world st) in
    (Run.of_err r, Run.record (EvSetupOpsAgent ctx vm config r) w st).

Definition InstallPackages (ctx : Context) (logger : Logger) (vm : VM)
    (pkgs : list string) : Run.M W unit :=
  fun st =>
    let '(r, w) := agents_InstallPackages X ctx logger vm pkgs (world st) in
    (Run.of_err r, Run.record (EvInstallPackages ctx vm pkgs r) w st).

Definition RunRemotely (ctx : Context) (logger : Logger) (vm : VM)
    (stdin command : string) : Run.M W CommandOutput :=
  fun st =>
    let '(r, w) := gce_RunRemotely X ctx logger vm stdin command (world st) in
    (r, Run.record (EvRunRemotely ctx vm stdin command r) w st).

Definition UploadContent (ctx : Context) (logger : Logger) (vm : VM)
    (content path : string) : Run.M W unit :=
  fun st =>
    let '(r, w) := gce_UploadContent X ctx logger vm content path (world st) in
    (Run.of_err r, Run.record (EvUploadContent ctx vm content path r) w st).

Definition Sleep (d : Duration) : Run.M W unit :=
  fun st => (inl tt, Run.record (EvSleep d) (time_Sleep X d (world st)) st).

(** [options], for a TTL that parsed. *)
Definition vmOptions (parsedTTL : Duration) : VMOptions :=
  {| Platform := distro g;
     Name := vmName g;
     MachineType := "e2-standard-16";
     Labels := [("ttl", ttlLabel parsedTTL)];
     Metadata := [("osconfig-disabled-features", "tasks")];
     ExtraCreateArguments := ["--boot-disk-size=4000GB"] |}.

(** The statements of [mainErr] between its [defer]s and its return. *)
Definition mainErr_body (ctx : Context) : Run.M W unit :=
  let logger := log_Default in
  parsedTTL <-
    Run.try (ParseDuration (float64_fracNanos X) (ttl g))
      (fmt_Errorf "Could not parse TTL duration %q: %w" [ttl g]) ;;
  let options := vmOptions parsedTTL in
  vm <- CreateInstance ctx logger options ;;
  Run.reach Provisioned ;;
  let debugLogPath := "/tmp/log_generator.log" in
  let config := config (logPath g) debugLogPath in
  SetupOpsAgent ctx logger vm config ;;
  Run.reach AgentInstalled ;;
  (if gce_IsWindows X (vm_Platform vm) then
     _ <- Run.wrapping (RunRemotely ctx logger vm EmptyString installPython)
            (fmt_Errorf "Could not install Python: %w" []) ;;
     Run.ret tt
   else
     InstallPackages ctx logger vm ["python3"]) ;;
  Run.reach InterpreterReady ;;
  UploadContent ctx logger vm (logGeneratorSource g) (logGeneratorPath g) ;;
  Run.reach ContentUploaded ;;
  let startLogGenerator :=
    startLogGenerator (gce_IsWindows X (vm_Platform vm))
      (logGeneratorPath g) (logSizeInBytes g) (logRate g) (logPath g)
      debugLogPath in
  _ <- RunRemotely ctx logger vm EmptyString startLogGenerator ;;
  Run.reach WorkloadLaunched ;;
  (if negb (gce_IsWindows X (vm_Platform vm)) then
     Sleep (5 * Second) ;;
     _ <- RunRemotely ctx logger vm EmptyString ("cat " ++ debugLogPath) ;;
     Run.ret tt
   else Run.ret tt).

(** [mainErr]: the body under a context of 60 minutes, then the deferred
    calls, last registered first: [cancel()], then
    [gce.CleanupKeysOrDie()].  The run is [Verified] when the body returns
    nil and [Failed] when it returns an error. *)
Definition mainErr (st0 : RunState W) : Return * RunState W :=
  let ctx := context_WithTimeout context_Background (60 * Minute) in
  let '(r, st1) := mainErr_body ctx st0 in
  let err := match r with inl _ => None | inr e => Some e end in
  let st2 :=
    {| world := world st1;
       trace := trace st1;
       stages := stages st1 ++ [match err with None => Verified | Some _ => Failed end]
    |} in
  let st3 := Run.record EvCancel (world st2) st2 in
  let '(returned, w) := gce_CleanupKeysOrDie X (world st3) in
  let st4 := Run.record (EvCleanupKeysOrDie returned) w st3 in
  (if returned then Returned err else Exited 1, st4).

(** A run starts in [Created], with nothing done yet. *)
Definition start (w : W) : RunState W :=
  {| world := w; trace := []; stages := [Created] |}.

(** [main]: [log.Fatal] writes the error and exits with status 1; a
    [main] that returns exits with status 0. *)
Definition main (w : W) : Outcome W :=
  match mainErr (start w) with
  | (Returned None, st) => {| exitStatus := 0; final := st |}
  | (Returned (Some e), st) =>
      {| exitStatus := 1; final := Run.record (EvLogFatal e) (world st) st |}
  | (Exited status, st) => {| exitStatus := status; final := st |}
  end.

End Launcher.

(** The calls of a whole run, the states it passed, and its exit status. *)
Definition calls {W : Type} (X : Externals W) (g : Vars) (w : W) : list Event :=
  trace (final (main X g w)).

Definition history {W : Type} (X : Externals W) (g : Vars) (w : W) : list Stage :=
  stages (final (main X g w)).

Definition exit {W : Type} (X : Externals W) (g : Vars) (w : W) : Z :=
  exitStatus (main X g w).

(** ** Reading a run *)


(** The calls that act on the virtual machine. *)
Definition isRemoteCall (ev : Event) : bool :=
  match ev with
  | EvSetupOpsAgent _ _ _ _
  | EvInstallPackages _ _ _ _
  | EvRunRemotely _ _ _ _ _
  | EvUploadContent _ _ _ _ _ => true
  | _ => false
  end.

Definition isCreateInstance (ev : Event) : bool :=
  match ev with
  | EvCreateInstance _ _ _ => true
  | _ => false
  end.

(** [b] does not occur in a history before [a] has occurred. *)
Definition precedes (a b : Stage) (h : list Stage) : Prop :=
  forall h1 h2 : list Stage, h = (h1 ++ b :: h2)%list -> In a h1.

Fixpoint precedes_from (seen : bool) (a b : Stage) (h : list Stage) : bool :=
  match h with
  | [] => true
  | s :: t =>
      if (Stage_eqb s b && negb seen)%bool then false
      else precedes_from (seen || Stage_eqb s a) a b t
  end.

(** The states of a run that meets no error, in order, up to the launch. *)
Definition stageOrder : list Stage :=
  [Created; Provisioned; AgentInstalled; InterpreterReady; ContentUploaded;
   WorkloadLaunched].

(** The context every call of [mainErr] is made under. *)
Definition runContext : Context :=
  context_WithTimeout context_Background (60 * Minute).

(** ** Sample hosts

    Concrete worlds on which runs can be evaluated.  The world is the file
    system of the virtual machine, newest file first. *)
Module Sample.

Definition Files : Type := list (string * string).

Fixpoint lookupFile (path : string) (fs : Files) : option string :=
  match fs with
  | [] => None
  | (p, content) :: rest =>
      if String.eqb p path then Some content else lookupFile path rest
  end.

Definition dropPrefix (n : nat) (s : string) : string :=
  substring n (String.length s - n) s.

(** The file a POSIX command line redirects to with [&>], if any. *)
Definition redirectTarget (command : string) : option string :=
  match index 0 "&> " command with
  | Some i =>
      let rest := dropPrefix (i + 3) command in
      match index 0 " " rest with
      | Some j => Some (substring 0 j rest)
      | None => None
      end
  | None => None
  end.

Definition silent : CommandOutput :=
  {| Stdout := EmptyString; Stderr := EmptyString |}.

(** A shell that knows [cat] and output redirection: [cat] prints the
    file or fails, a command with [&>] creates the target file, and the
    command started writes nothing to it. *)
Definition shell (command : string) (fs : Files) : result CommandOutput * Files :=
  if prefix "cat " command then
    match lookupFile (dropPrefix 4 command) fs with
    | Some content => (inl {| Stdout := content; Stderr := EmptyString |}, fs)
    | None => (inr (pkgError "cat: No such file or directory"), fs)
    end
  else
    match redirectTarget command with
    | Some target => (inl silent, (target, EmptyString) :: fs)
    | None => (inl silent, fs)
    end.

(** A host on which every step succeeds, reached through a provisioning
    API that answers [provision]. *)
Definition host (provision : option error) : Externals Files :=
  {| gce_IsWindows := fun platform => prefix "windows-" platform;
     gce_CreateInstance := fun _ _ options fs =>
       match provision with
       | Some e => (inr e, fs)
       | None =>
           (inl {| vm_Platform := Platform options; vm_Name := Name options |},
            fs)
       end;
     agents_SetupOpsAgent := fun _ _ _ config fs =>
       (None, ("/etc/google-cloud-ops-agent/config.yaml", config) :: fs);
     agents_InstallPackages := fun _ _ _ _ fs => (None, fs);
     gce_RunRemotely := fun _ _ _ _ command fs => shell command fs;
     gce_UploadContent := fun _ _ _ content path fs =>
       (None, (path, content) :: fs);
     gce_CleanupKeysOrDie := fun fs => (true, fs);
     time_Sleep := fun _ fs => fs;
     float64_fracNanos := fun f unit scale => f * unit / scale |}.

(** The environment of the example in the launcher's documentation. *)
Definition getenv (name : string) : string :=
  if String.eqb name "LOG_SIZE_IN_BYTES" then "1000"
  else if String.eqb name "LOG_RATE" then "1000"
  else if String.eqb name "TTL" then "100m"
  else if String.eqb name "DISTRO" then "debian-11"
  else EmptyString.

Definition vars : Vars := initVars getenv "print('log generator')".

Definition withTTL (t : string) (g : Vars) : Vars :=
  {| logSizeInBytes := logSizeInBytes g; logRate := logRate g;
     logPath := logPath g; logGeneratorPath := logGeneratorPath g;
     ttl := t; distro := distro g; vmName := vmName g;
     logGeneratorSource := logGeneratorSource g |}.

Definition withDistro (p : string) (g : Vars) : Vars :=
  {| logSizeInBytes := logSizeInBytes g; logRate := logRate g;
     logPath := logPath g; logGeneratorPath := logGeneratorPath g;
     ttl := ttl g; distro := p; vmName := vmName g;
     logGeneratorSource := logGeneratorSource g |}.

(** A provisioning API that refuses. *)
Definition quota : error := pkgError "quota exceeded".
Definition refusing : Externals Files := host (Some quota).

(** A host that is provisioned. *)
Definition granting : Externals Files := host None.







(** The virtual machines the sample API returns. *)
Definition debian : VM := {| vm_Platform := "debian-11"; vm_Name := EmptyString |}.
Definition windows : VM :=
  {| vm_Platform := "windows-2019"; vm_Name := EmptyString |}.

End Sample.

(** ** The agent's configuration language *)
Module AgentConfig.

(** Modelled from the spec: the reader of the agent's configuration,
    which belongs to the agent and not to the launcher.  The spec calls
    the configuration a structured pipeline description in a YAML-like
    syntax, built from structural fields (receiver paths, exporter name),
    that names file-tailing receivers and export targets.  The syntax
    read here is the block subset of YAML such a description needs:
    mappings nested by indentation, block sequences of scalars, and flow
    sequences of scalars in brackets. *)
#[warnings="-register-all"] Inductive Node : Type :=
| Scalar (s : string)
| Seq (items : list string)
| Map (entries : list (string * Node)).

Fixpoint splitOn (sep : ascii) (s : string) : list string :=
  match s with
  | EmptyString => [EmptyString]
  | String c rest =>
      if Ascii.eqb c sep then EmptyString :: splitOn sep rest
      else
        match splitOn sep rest with
        | l :: ls => String c l :: ls
        | [] => [String c EmptyString]
        end
  end.

(** The indentation of a line and what follows it. *)
Fixpoint indentOf (s : string) : nat * string :=
  match s with
  | String c rest =>
      if Ascii.eqb c " " then let '(n, b) := indentOf rest in (S n, b)
      else (O, s)
  | EmptyString => (O, s)
  end.

Definition Line : Type := (nat * string)%type.

(** The lines of a text that are not blank, with their indentation. *)
Definition linesOf (text : string) : list Line :=
  filter (fun l => negb (String.eqb (snd l) EmptyString))
    (map indentOf (splitOn (ascii_of_nat 10) text)).

(** [key: rest], split at the first colon. *)
Fixpoint splitKey (s : string) : option (string * string) :=
  match s with
  | EmptyString => None
  | String c rest =>
      if Ascii.eqb c ":" then Some (EmptyString, rest)
      else
        match splitKey rest with
        | Some (k, v) => Some (String c k, v)
        | None => None
        end
  end.

Definition dropFirst (s : string) : string :=
  match s with
  | String _ rest => rest
  | EmptyString => EmptyString
  end.

(** A scalar written in a line: not empty, and no list or mapping. *)
Definition plainScalar (s : string) : bool :=
  (negb (String.eqb s EmptyString) && negb (prefix "[" s) && negb (prefix "- " s)
   && negb (contains ": " s))%bool.

(** [[a, b]]: a flow sequence of plain scalars. *)
Definition flowSeq (s : string) : option (list string) :=
  if (prefix "[" s && hasSuffix "]" s)%bool then
    let inner := substring 1 (String.length s - 2) s in
    let items := map (fun i => snd (indentOf i)) (splitOn "," inner) in
    if forallb plainScalar items then Some items else None
  else None.

(** The value written after [key: ] on the same line. *)
Definition inlineValue (s : string) : option Node :=
  if prefix "[" s then
    match flowSeq s with
    | Some items => Some (Seq items)
    | None => None
    end
  else if plainScalar s then Some (Scalar s)
  else None.

(** The items [- scalar] of a block sequence at indentation [n]. *)
Fixpoint takeItems (n : nat) (ls : list Line) : option (list string * list Line) :=
  match ls with
  | (m, body) :: rest =>
      if ((m =? n)%nat && prefix "- " body)%bool then
        let item := dropFirst (dropFirst body) in
        if plainScalar item then
          match takeItems n rest with
          | Some (items, rest') => Some (item :: items, rest')
          | None => None
          end
        else None
      else Some ([], ls)
  | [] => Some ([], ls)
  end.

(** The entries of a block mapping at indentation [n]; what is left
    starts at a smaller indentation.  Every call consumes a line, so fuel
    above the number of lines is enough. *)
Fixpoint entries (fuel : nat) (n : nat) (ls : list Line)
  : option (list (string * Node) * list Line) :=
  match fuel with
  | O => None
  | S fuel' =>
      match ls with
      | [] => Some ([], [])
      | (m, body) :: rest =>
          if (m <? n)%nat then Some ([], ls)
          else if (n <? m)%nat then None
          else
            match splitKey body with
            | None => None
            | Some (key, after) =>
                if String.eqb key EmptyString then None
                else
                  let value :=
                    if String.eqb after EmptyString then
                      match rest with
                      | (k, b) :: _ =>
                          if prefix "- " b then
                            if (n <=? k)%nat then
                              match takeItems k rest with
                              | Some (items, rest') => Some (Seq items, rest')
                              | None => None
                              end
                            else None
                          else if (n <? k)%nat then
                            match entries fuel' k rest with
                            | Some (es, rest') => Some (Map es, rest')
                            | None => None
                            end
                          else None
                      | [] => None
                      end
                    else if prefix " " after then
                      match inlineValue (dropFirst after) with
                      | Some v => Some (v, rest)
                      | None => None
                      end
                    else None in
                  match value with
                  | None => None
                  | Some (v, rest') =>
                      match entries fuel' n rest' with
                      | Some (es, rest'') => Some ((key, v) :: es, rest'')
                      | None => None
                      end
                  end
            end
      end
  end.

(** Modelled from the spec: a document of the agent's configuration
    language, whose reader is not among the launcher sources, is one block
    mapping that starts in the first column and takes every line. *)
Definition parse (text : string) : option Node :=
  let ls := linesOf text in
  match entries (S (List.length ls)) 0 ls with
  | Some (es, []) => Some (Map es)
  | _ => None
  end.

(** The pipeline description a document stands for. *)
Record Receiver : Type := {
  receiver_type : string;
  include_paths : list string
}.

Record Pipeline : Type := {
  pipeline_receivers : list string;
  pipeline_exporters : list string
}.

Record Logging : Type := {
  receivers : list (string * Receiver);
  exporters : list (string * string);        (* name and type *)
  pipelines : list (string * Pipeline)
}.

Fixpoint field (key : string) (es : list (string * Node)) : option Node :=
  match es with
  | [] => None
  | (k, v) :: rest => if String.eqb k key then Some v else field key rest
  end.

Definition mapField (key : string) (n : Node) : option (list (string * Node)) :=
  match n with
  | Map es => match field key es with Some (Map sub) => Some sub | _ => None end
  | _ => None
  end.

Definition seqField (key : string) (n : Node) : option (list string) :=
  match n with
  | Map es => match field key es with Some (Seq l) => Some l | _ => None end
  | _ => None
  end.

Definition scalarField (key : string) (n : Node) : option string :=
  match n with
  | Map es => match field key es with Some (Scalar s) => Some s | _ => None end
  | _ => None
  end.

(** Decoding of every entry of a mapping, or of none. *)
Fixpoint each {A : Type} (f : Node -> option A) (es : list (string * Node))
  : option (list (string * A)) :=
  match es with
  | [] => Some []
  | (k, v) :: rest =>
      match f v, each f rest with
      | Some a, Some l => Some ((k, a) :: l)
      | _, _ => None
      end
  end.

Definition receiverOf (n : Node) : option Receiver :=
  match scalarField "type" n, seqField "include_paths" n with
  | Some t, Some paths => Some {| receiver_type := t; include_paths := paths |}
  | _, _ => None
  end.

Definition pipelineOf (n : Node) : option Pipeline :=
  match seqField "receivers" n, seqField "exporters" n with
  | Some rs, Some es => Some {| pipeline_receivers := rs; pipeline_exporters := es |}
  | _, _ => None
  end.

Definition decode (doc : Node) : option Logging :=
  match mapField "logging" doc with
  | None => None
  | Some logging =>
      match mapField "receivers" (Map logging), mapField "exporters" (Map logging),
            mapField "service" (Map logging) with
      | Some rs, Some es, Some service =>
          match each receiverOf rs, each (scalarField "type") es,
                mapField "pipelines" (Map service) with
          | Some rs', Some es', Some ps =>
              match each pipelineOf ps with
              | Some ps' =>
                  Some {| receivers := rs'; exporters := es'; pipelines := ps' |}
              | None => None
              end
          | _, _, _ => None
          end
      | _, _, _ => None
      end
  end.

Definition named {A : Type} (l : list (string * A)) (name : string) : bool :=
  existsb (fun e => String.eqb (fst e) name) l.

(** Every pipeline names receivers and exporters the document defines. *)
Definition closed (c : Logging) : bool :=
  forallb
    (fun p =>
       (forallb (named (receivers c)) (pipeline_receivers (snd p))
        && forallb (named (exporters c)) (pipeline_exporters (snd p)))%bool)
    (pipelines c).

(** Modelled from the spec: validity in the agent's configuration
    language, whose reader is not among the launcher sources.  A text is a
    configuration when it parses, decodes to a pipeline description and is
    closed. *)
Definition read (text : string) : option Logging :=
  match parse text with
  | Some doc =>
      match decode doc with
      | Some c => if closed c then Some c else None
      | None => None
      end
  | None => None
  end.

(** The file-tailing receivers of a configuration that watch [path]. *)
Definition tails (path : string) (c : Logging) : list string :=
  map fst
    (filter
       (fun r =>
          (String.eqb (receiver_type (snd r)) "files"
           && existsb (String.eqb path) (include_paths (snd r)))%bool)
       (receivers c)).

End AgentConfig.

(** ** Reading a run, further *)

(** The error a call returned, if it returned one. *)
Definition event_error (ev : Event) : option error :=
  match ev with
  | EvCreateInstance _ _ (inr e) => Some e
  | EvRunRemotely _ _ _ _ (inr e) => Some e
  | EvSetupOpsAgent _ _ _ (Some e) => Some e
  | EvInstallPackages _ _ _ (Some e) => Some e
  | EvUploadContent _ _ _ _ (Some e) => Some e
  | _ => None
  end.


(** The virtual machine a call acts on. *)
Definition event_vm (ev : Event) : option VM :=
  match ev with
  | EvSetupOpsAgent _ vm _ _
  | EvInstallPackages _ vm _ _
  | EvRunRemotely _ vm _ _ _
  | EvUploadContent _ vm _ _ _ => Some vm
  | _ => None
  end.

Definition isSleep (ev : Event) : bool :=
  match ev with EvSleep _ => true | _ => false end.

Definition isLogFatal (ev : Event) : bool :=
  match ev with EvLogFatal _ => true | _ => false end.

Definition isSetupOpsAgent (ev : Event) : bool :=
  match ev with EvSetupOpsAgent _ _ _ _ => true | _ => false end.

Definition isInstallPackages (ev : Event) : bool :=
  match ev with EvInstallPackages _ _ _ _ => true | _ => false end.

Definition isRunRemotely (ev : Event) : bool :=
  match ev with EvRunRemotely _ _ _ _ _ => true | _ => false end.

Definition isUploadContent (ev : Event) : bool :=
  match ev with EvUploadContent _ _ _ _ _ => true | _ => false end.

(** What the body of [mainErr] does: the provisioning request, the calls
    on the virtual machine and the sleep; not the deferred calls, nor the
    [log.Fatal] of [main]. *)
Definition isWork (ev : Event) : bool :=
  (isCreateInstance ev || isRemoteCall ev || isSleep ev)%bool.

Definition count (p : Event -> bool) (l : list Event) : nat :=
  List.length (filter p l).

(** After the first call that returned an error, no work is done. *)
Fixpoint quietAfterFailure (l : list Event) : bool :=
  match l with
  | [] => true
  | ev :: rest =>
      match event_error ev with
      | Some _ => forallb (fun e => negb (isWork e)) rest
      | None => quietAfterFailure rest
      end
  end.

(** The value of a decimal numeral read from the left, starting from [x]:
    what [leadingInt] accumulates over its digits. *)
Fixpoint horner (x : Z) (d : Decimal.uint) : Z :=
  match d with
  | Decimal.Nil => x
  | Decimal.D0 l => horner (x * 10 + 0) l
  | Decimal.D1 l => horner (x * 10 + 1) l
  | Decimal.D2 l => horner (x * 10 + 2) l
  | Decimal.D3 l => horner (x * 10 + 3) l
  | Decimal.D4 l => horner (x * 10 + 4) l
  | Decimal.D5 l => horner (x * 10 + 5) l
  | Decimal.D6 l => horner (x * 10 + 6) l
  | Decimal.D7 l => horner (x * 10 + 7) l
  | Decimal.D8 l => horner (x * 10 + 8) l
  | Decimal.D9 l => horner (x * 10 + 9) l
  end.

(** A string that does not go on with a digit. *)
Definition noLeadingDigit (s : string) : bool :=
  match s with
  | String c _ => negb (isDigit c)
  | EmptyString => true
  end.

(** ** Tactics: a run, case by case *)

Ltac run_unfold :=
  unfold calls, history, exit, main, mainErr, mainErr_body, start, runContext, Run.bind, Run.try,
    Run.wrapping, Run.reach, Run.ret, CreateInstance, SetupOpsAgent,
    InstallPackages, RunRemotely, UploadContent, Sleep, Run.record, Run.of_err
    in *.

Ltac run_simpl :=
  cbn [world trace stages final exitStatus app fst snd negb].

(** One more call of the run: a case for each of its results. *)
Ltac run_case :=
  match goal with
  | |- context [ParseDuration ?f ?s] =>
      destruct (ParseDuration f s) as [?d|?e] eqn:?HTTL
  | |- context [gce_CreateInstance ?X ?c ?l ?o ?wld] =>
      destruct (gce_CreateInstance X c l o wld) as [[?vm|?e] ?w] eqn:?Hcreate
  | |- context [agents_SetupOpsAgent ?X ?c ?l ?v ?s ?wld] =>
      destruct (agents_SetupOpsAgent X c l v s wld) as [[?e|] ?w] eqn:?Hsetup
  | |- context [gce_IsWindows ?X ?p] =>
      destruct (gce_IsWindows X p) eqn:?Hwin
  | |- context [agents_InstallPackages ?X ?c ?l ?v ?p ?wld] =>
      destruct (agents_InstallPackages X c l v p wld) as [[?e|] ?w] eqn:?Hinstall
  | |- context [gce_UploadContent ?X ?c ?l ?v ?s ?p ?wld] =>
      destruct (gce_UploadContent X c l v s p wld) as [[?e|] ?w] eqn:?Hupload
  | |- context [gce_RunRemotely ?X ?c ?l ?v ?i ?s ?wld] =>
      destruct (gce_RunRemotely X c l v i s wld) as [[?out|?e] ?w] eqn:?Hrun
  | |- context [gce_CleanupKeysOrDie ?X ?wld] =>
      destruct (gce_CleanupKeysOrDie X wld) as [[|] ?w] eqn:?Hclean
  end; run_simpl.

Ltac run_cases := run_unfold; run_simpl; repeat run_case.

(** Arithmetic on the units of package time and the bound of [int64]. *)
Ltac ttl_arith :=
  change Hour with 3600000000000 in *;
  change Minute with 60000000000 in *;
  change Second with 1000000000 in *;
  change (2 ^ 63 / 3600000000000) with 2562047 in *;
  change (2 ^ 63 / 60000000000) with 153722867 in *;
  change (2 ^ 63 / 1000000000) with 9223372036 in *;
  change (2 ^ 63) with 9223372036854775808 in *;
  lia.

(** * Properties *)

(** ** Strings *)

Lemma append_assoc (a b c : string) : (a ++ b) ++ c = a ++ b ++ c.
Proof. induction a as [|x a IH]; simpl; [reflexivity | now rewrite IH]. Qed.

Lemma append_nil_r (a : string) : a ++ EmptyString = a.
Proof. induction a as [|x a IH]; simpl; [reflexivity | now rewrite IH]. Qed.

Lemma length_append (a b : string) :
  String.length (a ++ b) = (String.length a + String.length b)%nat.
Proof. induction a as [|x a IH]; simpl; [reflexivity | now rewrite IH]. Qed.

Lemma prefix_append (x b : string) : prefix x (x ++ b) = true.
Proof.
  induction x as [|c x IH]; simpl.
  - now destruct b.
  - destruct (ascii_dec c c) as [_|ne]; [exact IH | now elim ne].
Qed.

Lemma contains_here (x s : string) : prefix x s = true -> contains x s = true.
Proof. intros H. destruct s; cbn [contains]; now rewrite H. Qed.

Lemma contains_later (x : string) (c : ascii) (s : string) :
  contains x s = true -> contains x (String c s) = true.
Proof.
  intros H. cbn [contains].
  destruct (prefix x (String c s)); [reflexivity | exact H].
Qed.

Lemma contains_append (a x b : string) : contains x (a ++ x ++ b) = true.
Proof.
  induction a as [|c a IH]; cbn [append].
  - apply contains_here, prefix_append.
  - apply contains_later, IH.
Qed.

Lemma contains_append_r (a x : string) : contains x (a ++ x) = true.
Proof. rewrite <- (append_nil_r x) at 2. apply contains_append. Qed.

Lemma substring_all (s : string) : substring 0 (String.length s) s = s.
Proof. induction s as [|c s IH]; simpl; [reflexivity | now rewrite IH]. Qed.

Lemma substring_skip (a s : string) (m : nat) :
  substring (String.length a) m (a ++ s) = substring 0 m s.
Proof. induction a as [|c a IH]; simpl; [reflexivity | exact IH]. Qed.

Lemma hasSuffix_append (a suf : string) : hasSuffix suf (a ++ suf) = true.
Proof.
  unfold hasSuffix. rewrite length_append.
  replace (String.length a + String.length suf - String.length suf)%nat
    with (String.length a) by lia.
  rewrite substring_skip, substring_all, String.eqb_refl, andb_true_r.
  apply Nat.leb_le. lia.
Qed.


(** ** Histories *)

Lemma Stage_eqb_eq (a b : Stage) : Stage_eqb a b = true <-> a = b.
Proof. destruct a, b; simpl; split; intros H; congruence. Qed.

Lemma precedes_from_sound (a b : Stage) (h : list Stage) :
  forall seen, precedes_from seen a b h = true ->
  forall h1 h2 : list Stage, h = (h1 ++ b :: h2)%list -> seen = true \/ In a h1.
Proof.
  induction h as [|s t IH]; intros seen Hp h1 h2 E.
  - destruct h1; discriminate E.
  - cbn [precedes_from] in Hp.
    destruct h1 as [|s1 h1]; cbn [app] in E; injection E as -> ->.
    + destruct seen; [now left |].
      assert (Hb : Stage_eqb b b = true) by now apply Stage_eqb_eq.
      rewrite Hb in Hp. discriminate Hp.
    + destruct (Stage_eqb s1 b && negb seen)%bool; [discriminate Hp |].
      destruct (IH _ Hp h1 h2 eq_refl) as [Hs | Hin].
      * apply orb_true_iff in Hs as [-> | Hs]; [now left | right; left].
        now apply Stage_eqb_eq.
      * right; now right.
Qed.

Lemma precedes_check (a b : Stage) (h : list Stage) :
  precedes_from false a b h = true -> precedes a b h.
Proof.
  intros Hp h1 h2 E.
  destruct (precedes_from_sound a b h false Hp h1 h2 E) as [H | H];
    [discriminate H | exact H].
Qed.

(** ** time.ParseDuration returns: its loop consumes its input *)

Lemma leadingInt_from_length (s : string) :
  forall x v r, leadingInt_from x s = Some (v, r) ->
  (String.length r <= String.length s)%nat.
Proof.
  induction s as [|c s IH]; intros x v r H; cbn [leadingInt_from] in H.
  - injection H as _ <-. apply le_n.
  - destruct (isDigit c).
    + destruct (x >? 2 ^ 63 / 10); [discriminate H |].
      destruct (wrap64 (x * 10 + digitVal c) >? 2 ^ 63); [discriminate H |].
      apply IH in H. cbn [String.length]. lia.
    + injection H as _ <-. apply le_n.
Qed.

Lemma leadingFraction_from_length (s : string) :
  forall x scale o f scale' r,
  leadingFraction_from x scale o s = (f, scale', r) ->
  (String.length r <= String.length s)%nat.
Proof.
  induction s as [|c s IH]; intros x scale o f scale' r H;
    cbn [leadingFraction_from] in H.
  - injection H as _ _ <-. apply le_n.
  - destruct (isDigit c).
    + cbn [String.length].
      destruct o; [apply IH in H; lia |].
      destruct (x >? (2 ^ 63 - 1) / 10); [apply IH in H; lia |].
      destruct (wrap64 (x * 10 + digitVal c) >? 2 ^ 63); apply IH in H; lia.
    + injection H as _ _ <-. apply le_n.
Qed.

Lemma spanUnit_length (s : string) :
  forall u r, spanUnit s = (u, r) ->
  (String.length u + String.length r)%nat = String.length s.
Proof.
  induction s as [|c s IH]; intros u r H; cbn [spanUnit] in H.
  - injection H as <- <-. reflexivity.
  - destruct (Ascii.eqb c "." || isDigit c)%bool.
    + injection H as <- <-. reflexivity.
    + destruct (spanUnit s) as [u' r'] eqn:E.
      injection H as <- <-. cbn [String.length]. now rewrite <- (IH u' r' eq_refl).
Qed.

(** With fuel above the length of the input, the loop of
    [time.ParseDuration] ends by itself. *)
Lemma parseTerms_fuel (frac : Z -> Z -> Z -> Z) (orig : string) :
  forall fuel s d, (String.length s < fuel)%nat ->
  parseTerms frac fuel orig s d <> None.
Proof.
  induction fuel as [|fuel IH]; intros s d Hlen; [lia |].
  cbn [parseTerms].
  destruct s as [|c0 s0]; [discriminate |].
  destruct (negb (Ascii.eqb c0 "." || isDigit c0)); [discriminate |].
  destruct (leadingInt (String c0 s0)) as [[v s1]|] eqn:Hint; [| discriminate].
  apply leadingInt_from_length in Hint.
  assert (Hfrac : forall f scale s2 post,
             (String.length s2 <= String.length s1)%nat ->
             (if (negb (negb (String.length (String c0 s0) =? String.length s1)%nat)
                  && negb post)%bool
              then Some (inr (time_invalidDuration orig))
              else
                let '(u, s3) := spanUnit s2 in
                if (String.length u =? 0)%nat
                then Some (inr (time_missingUnit orig))
                else
                  match unitMap u with
                  | None => Some (inr (time_unknownUnit u orig))
                  | Some unit =>
                      if v >? 2 ^ 63 / unit
                      then Some (inr (time_invalidDuration orig))
                      else
                        let v1 := wrap64 (v * unit) in
                        let v2 :=
                          if f >? 0 then wrap64 (v1 + frac f unit scale) else v1 in
                        if ((f >? 0) && (v2 >? 2 ^ 63))%bool
                        then Some (inr (time_invalidDuration orig))
                        else
                          let d' := wrap64 (d + v2) in
                          if d' >? 2 ^ 63
                          then Some (inr (time_invalidDuration orig))
                          else parseTerms frac fuel orig s3 d'
                  end) <> None).
  { intros f scale s2 post Hs2.
    destruct (_ && _)%bool; [discriminate |].
    destruct (spanUnit s2) as [u s3] eqn:Hu.
    apply spanUnit_length in Hu.
    destruct (String.length u =? 0)%nat eqn:Hz; [discriminate |].
    apply Nat.eqb_neq in Hz.
    destruct (unitMap u) as [unit|]; [| discriminate].
    destruct (v >? 2 ^ 63 / unit); [discriminate |].
    cbv zeta.
    destruct (_ && _)%bool; [discriminate |].
    destruct (_ >? 2 ^ 63); [discriminate |].
    apply IH. lia. }
  destruct s1 as [|c1 s1'].
  - apply (Hfrac 0 1 EmptyString false). apply le_n.
  - destruct c1 as [[] [] [] [] [] [] [] []];
      try (apply (Hfrac 0 1 _ false); apply le_n).
    destruct (leadingFraction s1') as [[f scale] s2] eqn:Hf.
    apply leadingFraction_from_length in Hf.
    apply Hfrac. cbn [String.length]. lia.
Qed.

(** The durations of the launcher's documentation. *)
Example ParseDuration_24h30m (frac : Z -> Z -> Z -> Z) :
  ParseDuration frac "24h30m" = inl (24 * Hour + 30 * Minute).
Proof. reflexivity. Qed.

Example ParseDuration_100m (frac : Z -> Z -> Z -> Z) :
  ParseDuration frac "100m" = inl (100 * Minute).
Proof. reflexivity. Qed.

Example ParseDuration_no_unit (frac : Z -> Z -> Z -> Z) :
  ParseDuration frac "100" = inr (time_missingUnit "100").
Proof. reflexivity. Qed.

(** ** The deadline *)


(** ** The order of the stages *)

(** C2: in every run the history of states is an initial part of
    Created, Provisioned, AgentInstalled, InterpreterReady,
    ContentUploaded, WorkloadLaunched, closed by Failed, or the whole of it
    closed by Verified; so WorkloadLaunched never occurs without
    ContentUploaded before it, nor Verified without WorkloadLaunched
    before it.  In terms of calls: when WorkloadLaunched is reached, the
    fourth call of the run was the upload of the log generator and the
    fifth a command on the same virtual machine, and both returned without
    error. *)
Theorem stage_order_monotonic :
  forall (W : Type) (X : Externals W) (g : Vars) (w : W),
    (exists k, (1 <= k <= 6)%nat /\
       (history X g w = (firstn k stageOrder ++ [Failed])%list \/
        history X g w = (stageOrder ++ [Verified])%list)) /\
    precedes ContentUploaded WorkloadLaunched (history X g w) /\
    precedes WorkloadLaunched Verified (history X g w) /\
    (In WorkloadLaunched (history X g w) ->
     exists vm cmd out,
       nth_error (calls X g w) 3 =
         Some (EvUploadContent runContext vm (logGeneratorSource g)
                 (logGeneratorPath g) None) /\
       nth_error (calls X g w) 4 =
         Some (EvRunRemotely runContext vm EmptyString cmd (inl out))).
Proof.
  intros W X g w.
  run_cases;
    (split;
     [ first
         [ exists 1%nat; split; [lia | left; reflexivity]
         | exists 2%nat; split; [lia | left; reflexivity]
         | exists 3%nat; split; [lia | left; reflexivity]
         | exists 4%nat; split; [lia | left; reflexivity]
         | exists 5%nat; split; [lia | left; reflexivity]
         | exists 6%nat; split; [lia | left; reflexivity]
         | exists 6%nat; split; [lia | right; reflexivity] ]
     | split; [apply precedes_check; reflexivity |];
       split; [apply precedes_check; reflexivity |];
       intros H;
       first
         [ do 3 eexists; split; reflexivity
         | exfalso; cbn [In] in H; intuition discriminate ] ]).
Qed.

Lemma stage_order_monotonic_witness :
  exists vm cmd out,
    nth_error (calls Sample.granting Sample.vars []) 3 =
      Some (EvUploadContent runContext vm (logGeneratorSource Sample.vars)
              (logGeneratorPath Sample.vars) None) /\
    nth_error (calls Sample.granting Sample.vars []) 4 =
      Some (EvRunRemotely runContext vm EmptyString cmd (inl out)).
Proof.
  apply (proj2 (proj2 (proj2
           (stage_order_monotonic _ Sample.granting Sample.vars [])))).
  vm_compute. tauto.
Defined.

(** ** A provisioning error *)

(** C3: when the TTL parses and [gce.CreateInstance] returns an error, the
    run goes from Created straight to Failed, [mainErr] returns that very
    error, the only calls after the provisioning request are the deferred
    [cancel] and [gce.CleanupKeysOrDie] (no call acts on a virtual
    machine), and the process exits with status 1, through [log.Fatal] of
    the provisioning error or through the cleanup itself. *)
Theorem provision_error_fails_run :
  forall (W : Type) (X : Externals W) (g : Vars) (w w' : W)
         (d : Duration) (e : error),
    ParseDuration (float64_fracNanos X) (ttl g) = inl d ->
    gce_CreateInstance X runContext log_Default (vmOptions g d) w = (inr e, w') ->
    history X g w = [Created; Failed] /\
    exit X g w = 1 /\
    forallb (fun ev => negb (isRemoteCall ev)) (calls X g w) = true /\
    exists returned,
      fst (gce_CleanupKeysOrDie X w') = returned /\
      fst (mainErr X g (start w)) =
        (if returned then Returned (Some e) else Exited 1) /\
      calls X g w =
        ([EvCreateInstance runContext (vmOptions g d) (inr e);
          EvCancel; EvCleanupKeysOrDie returned]
         ++ (if returned then [EvLogFatal e] else []))%list.
Proof.
  intros W X g w w' d e HTTL Hcreate.
  run_unfold. rewrite HTTL. run_simpl. rewrite Hcreate. run_simpl.
  destruct (gce_CleanupKeysOrDie X w') as [[|] w''] eqn:Hclean; run_simpl;
    repeat split; eexists; repeat split.
Qed.

Lemma provision_error_fails_run_witness :
  history Sample.refusing Sample.vars [] = [Created; Failed] /\
  exit Sample.refusing Sample.vars [] = 1 /\
  forallb (fun ev => negb (isRemoteCall ev)) (calls Sample.refusing Sample.vars [])
    = true /\
  exists returned,
    fst (gce_CleanupKeysOrDie Sample.refusing []) = returned /\
    fst (mainErr Sample.refusing Sample.vars (start [])) =
      (if returned then Returned (Some Sample.quota) else Exited 1) /\
    calls Sample.refusing Sample.vars [] =
      ([EvCreateInstance runContext (vmOptions Sample.vars (100 * Minute))
          (inr Sample.quota);
        EvCancel; EvCleanupKeysOrDie returned]
       ++ (if returned then [EvLogFatal Sample.quota] else []))%list.
Proof.
  apply (provision_error_fails_run _ Sample.refusing Sample.vars [] []
           (100 * Minute) Sample.quota).
  - vm_compute. reflexivity.
  - reflexivity.
Defined.

(** ** The rendered scripts *)

(** The POSIX command, operand by operand. *)
Lemma startLogGenerator_posix (p sz rt lp dbg : string) :
  startLogGenerator false p sz rt lp dbg =
    "nohup python3 " ++ p
    ++ (" " ++ bs ++ nl ++ "  --log-size-in-bytes=" ++ dq) ++ sz
    ++ (dq ++ " " ++ bs ++ nl ++ "  --log-rate=" ++ dq) ++ rt
    ++ (dq ++ " " ++ bs ++ nl ++ "  --log-write-type=file " ++ bs ++ nl
        ++ "  --file-path=" ++ dq) ++ lp
    ++ (dq ++ " " ++ bs ++ nl ++ "  &> ") ++ dbg ++ " &" ++ nl.
Proof. reflexivity. Qed.

(** The Windows command, operand by operand. *)
Lemma startLogGenerator_windows (p sz rt lp dbg : string) :
  startLogGenerator true p sz rt lp dbg =
    ("Invoke-WmiMethod -ComputerName . -Class Win32_Process -Name Create -ArgumentList "
     ++ dq ++ "$env:SystemDrive" ++ bs ++ "Python" ++ bs ++ "python.exe ") ++ p
    ++ " --log-size-in-bytes=" ++ sz
    ++ " --log-rate=" ++ rt
    ++ " --log-write-type=file --file-path=" ++ lp ++ dq.
Proof. reflexivity. Qed.

(** The configuration, operand by operand. *)
Lemma config_operands (lp dbg : string) :
  config lp dbg =
    (unlines
       [ "logging:"; "  receivers:"; "    mylog_source:"; "      type: files";
         "      include_paths:" ] ++ "      - ") ++ lp
    ++ (nl ++ unlines
                [ "    generator_debug_logs:"; "      type: files";
                  "      include_paths:" ] ++ "      - ") ++ dbg
    ++ nl ++ unlines
               [ "  exporters:"; "    google:";
                 "      type: google_cloud_logging"; "  service:";
                 "    pipelines:"; "      my_pipeline:"; "        receivers:";
                 "        - mylog_source"; "        - generator_debug_logs";
                 "        exporters: [google]" ].
Proof. reflexivity. Qed.

Lemma contains_split (s a x b : string) :
  s = a ++ x ++ b -> contains x s = true.
Proof. intros ->. apply contains_append. Qed.

Lemma contains_append2 (a p b x c : string) :
  contains x (a ++ p ++ b ++ x ++ c) = true.
Proof.
  rewrite <- (append_assoc p b), <- (append_assoc a (p ++ b)).
  apply contains_append.
Qed.

(** C4: with rate 1000 and record size 1000 the POSIX command that starts
    the log generator contains [--log-rate="1000"] and
    [--log-size-in-bytes="1000"], and ends in the redirection of both
    output streams to the debug log path, [&> path &]. *)
Theorem posix_start_script_flags :
  forall (g : Vars) (debugLogPath : string),
    logRate g = "1000" ->
    logSizeInBytes g = "1000" ->
    contains ("--log-rate=" ++ dq ++ "1000" ++ dq)
      (startLogGenerator false (logGeneratorPath g) (logSizeInBytes g)
         (logRate g) (logPath g) debugLogPath) = true /\
    contains ("--log-size-in-bytes=" ++ dq ++ "1000" ++ dq)
      (startLogGenerator false (logGeneratorPath g) (logSizeInBytes g)
         (logRate g) (logPath g) debugLogPath) = true /\
    hasSuffix ("&> " ++ debugLogPath ++ " &" ++ nl)
      (startLogGenerator false (logGeneratorPath g) (logSizeInBytes g)
         (logRate g) (logPath g) debugLogPath) = true.
Proof.
  intros g dbg Hrate Hsize. rewrite Hrate, Hsize.
  set (p := logGeneratorPath g). set (lp := logPath g).
  split; [| split].
  - change (startLogGenerator false p "1000" "1000" lp dbg)
      with ("nohup python3 " ++ p
            ++ (" " ++ bs ++ nl ++ "  --log-size-in-bytes=" ++ dq ++ "1000" ++ dq
                ++ " " ++ bs ++ nl ++ "  ")
            ++ ("--log-rate=" ++ dq ++ "1000" ++ dq)
            ++ (" " ++ bs ++ nl ++ "  --log-write-type=file " ++ bs ++ nl
                ++ "  --file-path=" ++ dq ++ lp ++ dq ++ " " ++ bs ++ nl
                ++ "  &> " ++ dbg ++ " &" ++ nl)).
    apply contains_append2.
  - change (startLogGenerator false p "1000" "1000" lp dbg)
      with ("nohup python3 " ++ p
            ++ (" " ++ bs ++ nl ++ "  ")
            ++ ("--log-size-in-bytes=" ++ dq ++ "1000" ++ dq)
            ++ (" " ++ bs ++ nl ++ "  --log-rate=" ++ dq ++ "1000" ++ dq
                ++ " " ++ bs ++ nl ++ "  --log-write-type=file " ++ bs ++ nl
                ++ "  --file-path=" ++ dq ++ lp ++ dq ++ " " ++ bs ++ nl
                ++ "  &> " ++ dbg ++ " &" ++ nl)).
    apply contains_append2.
  - replace (startLogGenerator false p "1000" "1000" lp dbg)
      with (("nohup python3 " ++ p
             ++ (" " ++ bs ++ nl ++ "  --log-size-in-bytes=" ++ dq ++ "1000" ++ dq
                 ++ " " ++ bs ++ nl ++ "  --log-rate=" ++ dq ++ "1000" ++ dq
                 ++ " " ++ bs ++ nl ++ "  --log-write-type=file " ++ bs ++ nl
                 ++ "  --file-path=" ++ dq)
             ++ lp ++ (dq ++ " " ++ bs ++ nl ++ "  "))
            ++ ("&> " ++ dbg ++ " &" ++ nl)).
    + apply hasSuffix_append.
    + rewrite !append_assoc. reflexivity.
Qed.

Lemma posix_start_script_flags_witness :
  contains ("--log-rate=" ++ dq ++ "1000" ++ dq)
    (startLogGenerator false (logGeneratorPath Sample.vars)
       (logSizeInBytes Sample.vars) (logRate Sample.vars)
       (logPath Sample.vars) "/tmp/log_generator.log") = true /\
  contains ("--log-size-in-bytes=" ++ dq ++ "1000" ++ dq)
    (startLogGenerator false (logGeneratorPath Sample.vars)
       (logSizeInBytes Sample.vars) (logRate Sample.vars)
       (logPath Sample.vars) "/tmp/log_generator.log") = true /\
  hasSuffix ("&> " ++ "/tmp/log_generator.log" ++ " &" ++ nl)
    (startLogGenerator false (logGeneratorPath Sample.vars)
       (logSizeInBytes Sample.vars) (logRate Sample.vars)
       (logPath Sample.vars) "/tmp/log_generator.log") = true.
Proof.
  apply (posix_start_script_flags Sample.vars "/tmp/log_generator.log");
    reflexivity.
Defined.

(** ** Path values in the rendered texts *)





(** ** The TTL label *)

(** C5, as the code has it: the label of the provisioning request is the
    TTL in minutes truncated toward zero, which is the floor for every TTL
    that is not negative; [100m] gives 100 and [90m30s] gives 90. *)
Theorem ttl_label_truncates_toward_zero :
  (forall (W : Type) (X : Externals W) (g : Vars) (w : W) (d : Duration),
      ParseDuration (float64_fracNanos X) (ttl g) = inl d ->
      exists r rest,
        calls X g w = EvCreateInstance runContext (vmOptions g d) r :: rest /\
        Labels (vmOptions g d) = [("ttl", Itoa (Z.quot d Minute))] /\
        (0 <= d -> Z.quot d Minute = d / Minute)) /\
  (forall frac,
      ParseDuration frac "100m" = inl (100 * Minute) /\
      ttlLabel (100 * Minute) = "100") /\
  (forall frac,
      ParseDuration frac "90m30s" = inl (90 * Minute + 30 * Second) /\
      ttlLabel (90 * Minute + 30 * Second) = "90").
Proof.
  split; [| split; intros frac; split; reflexivity].
  intros W X g w d HTTL.
  assert (Hfloor : 0 <= d -> Z.quot d Minute = d / Minute).
  { intros Hd. apply Z.quot_div_nonneg; [exact Hd | reflexivity]. }
  run_unfold. rewrite HTTL. run_simpl.
  repeat run_case; do 2 eexists; (split; [reflexivity | split; [reflexivity | exact Hfloor]]).
Qed.

Lemma ttl_label_truncates_toward_zero_witness :
  exists r rest,
    calls Sample.granting (Sample.withTTL "90m30s" Sample.vars) [] =
      EvCreateInstance runContext
        (vmOptions (Sample.withTTL "90m30s" Sample.vars) 5430000000000) r :: rest /\
    Labels (vmOptions (Sample.withTTL "90m30s" Sample.vars) 5430000000000) =
      [("ttl", Itoa (Z.quot 5430000000000 Minute))] /\
    (0 <= 5430000000000 -> Z.quot 5430000000000 Minute = 5430000000000 / Minute).
Proof.
  apply (proj1 ttl_label_truncates_toward_zero _ Sample.granting
           (Sample.withTTL "90m30s" Sample.vars) [] 5430000000000).
  vm_compute. reflexivity.
Defined.

(** C5, as claimed, fails for a negative TTL: [-90m30s] parses, the
    provisioning request is issued, and its label is -90 where the floor of
    -90.5 minutes is -91. *)
Lemma negative_ttl_label_is_not_floor :
  ParseDuration (float64_fracNanos Sample.granting) "-90m30s"
    = inl (-5430000000000) /\
  (exists r rest,
      calls Sample.granting (Sample.withTTL "-90m30s" Sample.vars) [] =
        EvCreateInstance runContext
          (vmOptions (Sample.withTTL "-90m30s" Sample.vars) (-5430000000000)) r
        :: rest) /\
  Labels (vmOptions (Sample.withTTL "-90m30s" Sample.vars) (-5430000000000)) =
    [("ttl", "-90")] /\
  Itoa (-5430000000000 / Minute) = "-91".
Proof.
  split; [vm_compute; reflexivity |].
  split; [do 2 eexists; vm_compute; reflexivity |].
  split; vm_compute; reflexivity.
Qed.

(** ** The verification read *)

(** C6, as the code has it: when the fifth call of a run is a command that
    returned without error on a virtual machine that is not Windows, that
    command is the one that starts the log generator, and the run goes on
    with a sleep of five seconds and the command [cat /tmp/log_generator.log];
    the run is Verified exactly when that command returns without error,
    whatever it printed. *)
Theorem verification_read_decides :
  forall (W : Type) (X : Externals W) (g : Vars) (w : W)
         (vm : VM) (cmd : string) (out : CommandOutput),
    gce_IsWindows X (vm_Platform vm) = false ->
    nth_error (calls X g w) 4 =
      Some (EvRunRemotely runContext vm EmptyString cmd (inl out)) ->
    cmd = startLogGenerator false (logGeneratorPath g) (logSizeInBytes g)
            (logRate g) (logPath g) "/tmp/log_generator.log" /\
    exists r rest,
      skipn 5 (calls X g w) =
        EvSleep (5 * Second)
        :: EvRunRemotely runContext vm EmptyString "cat /tmp/log_generator.log" r
        :: rest /\
      (In Verified (history X g w) <-> exists out', r = inl out').
Proof.
  intros W X g w vm cmd out Hposix.
  run_cases; cbn [nth_error skipn]; intros H;
    try discriminate H; injection H as ? ? ?; subst;
    try congruence;
    (split; [reflexivity |]); do 2 eexists; (split; [reflexivity |]);
    split; intros Hv.
  all: try (eexists; reflexivity).
  all: try (destruct Hv as [? Hv]; discriminate Hv).
  all: try (cbn [In] in Hv; intuition discriminate).
  all: cbn [In]; tauto.
Qed.

Lemma verification_read_decides_witness :
  startLogGenerator false "/log_generator.py" "1000" "1000" "/tmp/tail_file"
    "/tmp/log_generator.log" =
  startLogGenerator false (logGeneratorPath Sample.vars)
    (logSizeInBytes Sample.vars) (logRate Sample.vars) (logPath Sample.vars)
    "/tmp/log_generator.log" /\
  exists r rest,
    skipn 5 (calls Sample.granting Sample.vars []) =
      EvSleep (5 * Second)
      :: EvRunRemotely runContext Sample.debian EmptyString
           "cat /tmp/log_generator.log" r
      :: rest /\
    (In Verified (history Sample.granting Sample.vars []) <->
     exists out', r = inl out').
Proof.
  apply (verification_read_decides _ Sample.granting Sample.vars []
           Sample.debian _ Sample.silent).
  - reflexivity.
  - vm_compute. reflexivity.
Defined.

(** C6, as claimed, fails: on the sample host the log generator writes
    nothing to its debug log, the log exists and is empty when it is read,
    the read prints nothing, and the run is Verified and exits with
    status 0. *)
Lemma empty_debug_log_is_verified :
  Sample.lookupFile "/tmp/log_generator.log"
    (world (final (main Sample.granting Sample.vars []))) = Some EmptyString /\
  nth_error (calls Sample.granting Sample.vars []) 6 =
    Some (EvRunRemotely runContext Sample.debian EmptyString
            "cat /tmp/log_generator.log"
            (inl {| Stdout := EmptyString; Stderr := EmptyString |})) /\
  last (history Sample.granting Sample.vars []) Created = Verified /\
  exit Sample.granting Sample.vars [] = 0.
Proof. repeat split; vm_compute; reflexivity. Qed.

(** ** The start command of each platform *)




(** ** What the launcher checks before it provisions *)

(** C8, as the code has it: the only input [mainErr] checks before the
    provisioning request is the syntax of the TTL.  When the TTL does not
    parse, no request is issued, the run fails from Created and exits with
    status 1 (when the cleanup returns, [mainErr] returns the parse error,
    wrapped).  When it parses, whatever its sign, the request is issued
    with the platform identifier as it is in DISTRO, empty or not. *)
Theorem launcher_checks_only_ttl_syntax :
  forall (W : Type) (X : Externals W) (g : Vars) (w : W),
    (forall e : error,
        ParseDuration (float64_fracNanos X) (ttl g) = inr e ->
        existsb isCreateInstance (calls X g w) = false /\
        history X g w = [Created; Failed] /\
        exit X g w = 1 /\
        (fst (mainErr X g (start w)) = Exited 1 \/
         fst (mainErr X g (start w)) =
           Returned
             (Some (fmt_Errorf "Could not parse TTL duration %q: %w" [ttl g] e)))) /\
    (forall d : Duration,
        ParseDuration (float64_fracNanos X) (ttl g) = inl d ->
        exists r rest,
          calls X g w = EvCreateInstance runContext (vmOptions g d) r :: rest /\
          Platform (vmOptions g d) = distro g).
Proof.
  intros W X g w. split.
  - intros e HTTL. run_unfold. rewrite HTTL. run_simpl.
    repeat run_case; repeat split; auto.
  - intros d HTTL. run_unfold. rewrite HTTL. run_simpl.
    repeat run_case; do 2 eexists; split; reflexivity.
Qed.

Lemma launcher_checks_only_ttl_syntax_witness :
  (existsb isCreateInstance
     (calls Sample.granting (Sample.withTTL "soon" Sample.vars) []) = false /\
   history Sample.granting (Sample.withTTL "soon" Sample.vars) [] =
     [Created; Failed] /\
   exit Sample.granting (Sample.withTTL "soon" Sample.vars) [] = 1 /\
   (fst (mainErr Sample.granting (Sample.withTTL "soon" Sample.vars) (start []))
      = Exited 1 \/
    fst (mainErr Sample.granting (Sample.withTTL "soon" Sample.vars) (start []))
      = Returned
          (Some (fmt_Errorf "Could not parse TTL duration %q: %w"
                   [ttl (Sample.withTTL "soon" Sample.vars)]
                   (time_invalidDuration "soon"))))) /\
  (exists r rest,
      calls Sample.granting Sample.vars [] =
        EvCreateInstance runContext (vmOptions Sample.vars (100 * Minute)) r
        :: rest /\
      Platform (vmOptions Sample.vars (100 * Minute)) = distro Sample.vars).
Proof.
  split.
  - apply (proj1 (launcher_checks_only_ttl_syntax _ Sample.granting
                    (Sample.withTTL "soon" Sample.vars) [])).
    vm_compute. reflexivity.
  - apply (proj2 (launcher_checks_only_ttl_syntax _ Sample.granting
                    Sample.vars [])).
    vm_compute. reflexivity.
Defined.

(** C8, as claimed, fails: a negative TTL, a zero TTL and an empty platform
    identifier each reach the provisioning request. *)
Lemma nonpositive_ttl_and_empty_platform_are_provisioned :
  (ParseDuration (float64_fracNanos Sample.granting) "-5m" = inl (-300000000000) /\
   nth_error (calls Sample.granting (Sample.withTTL "-5m" Sample.vars) []) 0 =
     Some (EvCreateInstance runContext
             (vmOptions (Sample.withTTL "-5m" Sample.vars) (-300000000000))
             (inl Sample.debian))) /\
  (ParseDuration (float64_fracNanos Sample.granting) "0" = inl 0 /\
   nth_error (calls Sample.granting (Sample.withTTL "0" Sample.vars) []) 0 =
     Some (EvCreateInstance runContext
             (vmOptions (Sample.withTTL "0" Sample.vars) 0)
             (inl Sample.debian))) /\
  (Platform (vmOptions (Sample.withDistro EmptyString Sample.vars) (100 * Minute))
     = EmptyString /\
   nth_error (calls Sample.granting (Sample.withDistro EmptyString Sample.vars) []) 0 =
     Some (EvCreateInstance runContext
             (vmOptions (Sample.withDistro EmptyString Sample.vars) (100 * Minute))
             (inl {| vm_Platform := EmptyString; vm_Name := EmptyString |}))).
Proof. repeat split; vm_compute; reflexivity. Qed.

(** ** The agent configuration *)

Lemma read_launcher_config :
  AgentConfig.read (config "/tmp/tail_file" "/tmp/log_generator.log") =
    Some
      {| AgentConfig.receivers :=
           [("mylog_source",
             {| AgentConfig.receiver_type := "files";
                AgentConfig.include_paths := ["/tmp/tail_file"] |});
            ("generator_debug_logs",
             {| AgentConfig.receiver_type := "files";
                AgentConfig.include_paths := ["/tmp/log_generator.log"] |})];
         AgentConfig.exporters := [("google", "google_cloud_logging")];
         AgentConfig.pipelines :=
           [("my_pipeline",
             {| AgentConfig.pipeline_receivers :=
                  ["mylog_source"; "generator_debug_logs"];
                AgentConfig.pipeline_exporters := ["google"] |})] |}.
Proof. vm_compute. reflexivity. Qed.

(** The reader refuses a text whose structure a path breaks. *)
Example read_rejects_broken_structure :
  AgentConfig.read (config "/tmp/tail_file: x" "/tmp/log_generator.log") = None /\
  AgentConfig.read (config ("/tmp/tail_file" ++ nl ++ "  oops") "/tmp/log_generator.log")
    = None.
Proof. split; vm_compute; reflexivity. Qed.

(** C9: every configuration a run hands to [agents.SetupOpsAgent] is the
    one text rendered from the two log paths; it reads as a configuration
    whose receivers are two receivers of type [files], [mylog_source] on
    the log path of the generator and [generator_debug_logs] on the debug
    log path, whose only exporter is [google], and whose one pipeline
    connects them. *)
Theorem agent_config_is_valid_pipeline :
  forall (W : Type) (X : Externals W) (getenv : string -> string)
         (embedded : string) (w : W)
         (ctx : Context) (vm : VM) (cfg : string) (r : option error),
    In (EvSetupOpsAgent ctx vm cfg r) (calls X (initVars getenv embedded) w) ->
    cfg = config (logPath (initVars getenv embedded)) "/tmp/log_generator.log" /\
    exists c : AgentConfig.Logging,
      AgentConfig.read cfg = Some c /\
      map fst (AgentConfig.receivers c) = ["mylog_source"; "generator_debug_logs"] /\
      AgentConfig.tails (logPath (initVars getenv embedded)) c = ["mylog_source"] /\
      AgentConfig.tails "/tmp/log_generator.log" c = ["generator_debug_logs"] /\
      map fst (AgentConfig.exporters c) = ["google"] /\
      map snd (AgentConfig.pipelines c) =
        [{| AgentConfig.pipeline_receivers := ["mylog_source"; "generator_debug_logs"];
            AgentConfig.pipeline_exporters := ["google"] |}].
Proof.
  intros W X getenv embedded w ctx vm cfg r.
  run_cases; cbn [In]; intros H;
    repeat (destruct H as [H | H]; [try discriminate H |]);
    try contradiction;
    injection H as _ _ <- _;
    (split; [reflexivity |]);
    (eexists; split; [exact read_launcher_config |]);
    repeat split.
Qed.

Lemma agent_config_is_valid_pipeline_witness :
  config "/tmp/tail_file" "/tmp/log_generator.log" =
    config (logPath (initVars Sample.getenv "print('log generator')"))
      "/tmp/log_generator.log" /\
  exists c : AgentConfig.Logging,
    AgentConfig.read (config "/tmp/tail_file" "/tmp/log_generator.log") = Some c /\
    map fst (AgentConfig.receivers c) = ["mylog_source"; "generator_debug_logs"] /\
    AgentConfig.tails (logPath (initVars Sample.getenv "print('log generator')")) c
      = ["mylog_source"] /\
    AgentConfig.tails "/tmp/log_generator.log" c = ["generator_debug_logs"] /\
    map fst (AgentConfig.exporters c) = ["google"] /\
    map snd (AgentConfig.pipelines c) =
      [{| AgentConfig.pipeline_receivers := ["mylog_source"; "generator_debug_logs"];
          AgentConfig.pipeline_exporters := ["google"] |}].
Proof.
  apply (agent_config_is_valid_pipeline _ Sample.granting Sample.getenv
           "print('log generator')" [] runContext Sample.debian _ None).
  vm_compute. right. left. reflexivity.
Defined.

(** * Further properties of the launcher *)

(** ** The deferred calls *)

(** X1: whatever happens in the body, a run ends with [cancel] and then
    [gce.CleanupKeysOrDie], each called once: every provisioning request,
    call on the virtual machine and sleep comes before them, and the
    [log.Fatal] of [main], if any, after them; when the cleanup ends the
    process, [main] does not reach its [log.Fatal]. *)
Theorem deferred_calls_close_every_run :
  forall (W : Type) (X : Externals W) (g : Vars) (w : W),
    exists returned : bool,
      calls X g w =
        (filter isWork (calls X g w)
         ++ [EvCancel; EvCleanupKeysOrDie returned]
         ++ filter isLogFatal (calls X g w))%list /\
      (returned = false -> filter isLogFatal (calls X g w) = []).
Proof.
  intros W X g w.
  run_cases; eexists; (split; [reflexivity | intros H; first [reflexivity | discriminate H]]).
Qed.

(** X2: a call that returns an error is the last thing the body does: no
    provisioning request, call on the virtual machine or sleep follows it,
    the run is Failed, and the exit status is 1. *)
Lemma event_error_isWork (ev : Event) (e : error) :
  event_error ev = Some e -> isWork ev = true.
Proof. destruct ev; cbn; intros H; try discriminate H; reflexivity. Qed.

Lemma quietAfterFailure_sound (l : list Event) :
  quietAfterFailure l = true ->
  forall (pre post : list Event) (ev : Event) (e : error),
    l = (pre ++ ev :: post)%list ->
    event_error ev = Some e ->
    forallb (fun x => negb (isWork x)) post = true.
Proof.
  induction l as [|x l IH]; intros Hq pre post ev e E He.
  - destruct pre; discriminate E.
  - cbn [quietAfterFailure] in Hq.
    destruct pre as [|y pre]; cbn [app] in E; injection E as -> ->.
    + rewrite He in Hq. exact Hq.
    + destruct (event_error y) as [ey|] eqn:Hy.
      * rewrite forallb_app in Hq. apply andb_true_iff in Hq as [_ Hq].
        cbn [forallb] in Hq. rewrite (event_error_isWork _ _ He) in Hq.
        discriminate Hq.
      * exact (IH Hq pre post ev e eq_refl He).
Qed.

Theorem no_work_after_a_failed_call :
  forall (W : Type) (X : Externals W) (g : Vars) (w : W)
         (pre post : list Event) (ev : Event) (e : error),
    calls X g w = (pre ++ ev :: post)%list ->
    event_error ev = Some e ->
    forallb (fun x => negb (isWork x)) post = true /\
    In Failed (history X g w) /\
    exit X g w = 1.
Proof.
  intros W X g w pre post ev e E He.
  split; [| split].
  - apply (quietAfterFailure_sound (calls X g w)) with (pre := pre) (ev := ev) (e := e);
      [| exact E | exact He].
    clear. run_cases; reflexivity.
  - assert (Hex : existsb (fun x => match event_error x with Some _ => true | None => false end)
                    (calls X g w) = true).
    { rewrite E, existsb_app. cbn [existsb]. rewrite He. now rewrite orb_true_r. }
    clear - Hex. revert Hex.
    run_cases; cbn; intros Hex; try discriminate Hex; tauto.
  - assert (Hex : existsb (fun x => match event_error x with Some _ => true | None => false end)
                    (calls X g w) = true).
    { rewrite E, existsb_app. cbn [existsb]. rewrite He. now rewrite orb_true_r. }
    clear - Hex. revert Hex.
    run_cases; cbn; intros Hex; try discriminate Hex; reflexivity.
Qed.

Lemma no_work_after_a_failed_call_witness :
  forallb (fun x => negb (isWork x))
    [EvCancel; EvCleanupKeysOrDie true; EvLogFatal Sample.quota] = true /\
  In Failed (history Sample.refusing Sample.vars []) /\
  exit Sample.refusing Sample.vars [] = 1.
Proof.
  apply (no_work_after_a_failed_call _ Sample.refusing Sample.vars [] []
           [EvCancel; EvCleanupKeysOrDie true; EvLogFatal Sample.quota]
           (EvCreateInstance runContext (vmOptions Sample.vars (100 * Minute))
              (inr Sample.quota))
           Sample.quota).
  - vm_compute. reflexivity.
  - reflexivity.
Defined.

(** X3: the exit status is 0 or 1; it is 0 exactly when the run is
    Verified and the cleanup returned.  [log.Fatal] is called at most once,
    and exactly when the run Failed and the cleanup returned. *)
Theorem exit_status_reports_the_run :
  forall (W : Type) (X : Externals W) (g : Vars) (w : W),
    (exit X g w = 0 \/ exit X g w = 1) /\
    (exit X g w = 0 <->
     In Verified (history X g w) /\ In (EvCleanupKeysOrDie true) (calls X g w)) /\
    (count isLogFatal (calls X g w) = 1%nat <->
     In Failed (history X g w) /\ In (EvCleanupKeysOrDie true) (calls X g w)) /\
    (count isLogFatal (calls X g w) <= 1)%nat.
Proof.
  intros W X g w.
  run_cases; cbn [In count filter isLogFatal List.length];
    (split; [auto |]); (split; [| split]); try lia;
    split; intros H; try discriminate H; try reflexivity;
    try (repeat split; tauto);
    try (exfalso; intuition discriminate).
Qed.

(** X4: the error [main] hands to [log.Fatal] is the error of the step
    that failed: the error of [time.ParseDuration] wrapped as
    [Could not parse TTL duration] (and then nothing was done), the error
    of the Python installation on Windows wrapped as
    [Could not install Python], or else the error of the last step of the
    body exactly as that step returned it. *)
Theorem fatal_error_is_the_error_of_the_failed_call :
  forall (W : Type) (X : Externals W) (g : Vars) (w : W) (e : error),
    In (EvLogFatal e) (calls X g w) ->
    (exists pe : error,
        ParseDuration (float64_fracNanos X) (ttl g) = inr pe /\
        e = fmt_Errorf "Could not parse TTL duration %q: %w" [ttl g] pe /\
        count isWork (calls X g w) = 0%nat) \/
    (exists (vm : VM) (e' : error),
        nth_error (calls X g w) 2 =
          Some (EvRunRemotely runContext vm EmptyString installPython (inr e')) /\
        gce_IsWindows X (vm_Platform vm) = true /\
        e = fmt_Errorf "Could not install Python: %w" [] e') \/
    (exists ev : Event,
        last (filter isWork (calls X g w)) EvCancel = ev /\
        event_error ev = Some e).
Proof.
  intros W X g w e.
  run_cases; cbn [In]; intros H;
    repeat (destruct H as [H | H]; [try discriminate H |]);
    try contradiction;
    injection H as <-.
  all: first
    [ left; eexists; split; [reflexivity | split; reflexivity]
    | right; left; do 2 eexists; split; [reflexivity | split; [assumption | reflexivity]]
    | right; right; eexists; split; reflexivity ].
Qed.

Lemma fatal_error_is_the_error_of_the_failed_call_witness :
  (exists pe : error,
      ParseDuration (float64_fracNanos Sample.refusing) (ttl Sample.vars)
        = inr pe /\
      Sample.quota =
        fmt_Errorf "Could not parse TTL duration %q: %w" [ttl Sample.vars] pe /\
      count isWork (calls Sample.refusing Sample.vars []) = 0%nat) \/
  (exists (vm : VM) (e' : error),
      nth_error (calls Sample.refusing Sample.vars []) 2 =
        Some (EvRunRemotely runContext vm EmptyString installPython (inr e')) /\
      gce_IsWindows Sample.refusing (vm_Platform vm) = true /\
      Sample.quota = fmt_Errorf "Could not install Python: %w" [] e') \/
  (exists ev : Event,
      last (filter isWork (calls Sample.refusing Sample.vars [])) EvCancel = ev /\
      event_error ev = Some Sample.quota).
Proof.
  apply (fatal_error_is_the_error_of_the_failed_call _ Sample.refusing
           Sample.vars [] Sample.quota).
  vm_compute. right. right. right. left. reflexivity.
Defined.

(** X5: every call that acts on a virtual machine acts on the one
    [gce.CreateInstance] returned as the first call of the run, for a TTL
    that parsed. *)
Theorem every_call_acts_on_the_provisioned_vm :
  forall (W : Type) (X : Externals W) (g : Vars) (w : W) (ev : Event) (vm : VM),
    In ev (calls X g w) ->
    event_vm ev = Some vm ->
    exists d : Duration,
      ParseDuration (float64_fracNanos X) (ttl g) = inl d /\
      nth_error (calls X g w) 0 =
        Some (EvCreateInstance runContext (vmOptions g d) (inl vm)).
Proof.
  intros W X g w ev vm.
  run_cases; cbn [In nth_error]; intros H Hvm;
    repeat (destruct H as [H | H]; [subst ev; try discriminate Hvm |]);
    try contradiction;
    injection Hvm as <-; eexists; split; reflexivity.
Qed.

Lemma every_call_acts_on_the_provisioned_vm_witness :
  exists d : Duration,
    ParseDuration (float64_fracNanos Sample.granting) (ttl Sample.vars) = inl d /\
    nth_error (calls Sample.granting Sample.vars []) 0 =
      Some (EvCreateInstance runContext (vmOptions Sample.vars d)
              (inl Sample.debian)).
Proof.
  apply (every_call_acts_on_the_provisioned_vm _ Sample.granting Sample.vars []
           (EvInstallPackages runContext Sample.debian ["python3"] None)
           Sample.debian).
  - vm_compute. right. right. left. reflexivity.
  - reflexivity.
Defined.

(** X6: no step is retried: a run makes at most one provisioning request,
    one agent setup, one package installation, one upload, one sleep and
    two remote commands, at most five calls on the virtual machine in
    all. *)
Theorem no_step_is_retried :
  forall (W : Type) (X : Externals W) (g : Vars) (w : W),
    (count isCreateInstance (calls X g w) <= 1)%nat /\
    (count isSetupOpsAgent (calls X g w) <= 1)%nat /\
    (count isInstallPackages (calls X g w) <= 1)%nat /\
    (count isUploadContent (calls X g w) <= 1)%nat /\
    (count isRunRemotely (calls X g w) <= 2)%nat /\
    (count isSleep (calls X g w) <= 1)%nat /\
    (count isRemoteCall (calls X g w) <= 5)%nat.
Proof.
  intros W X g w.
  run_cases; cbn; repeat split; lia.
Qed.

(** X7: an exit status of 0 means that every step ran and returned
    without error: the run is the provisioning request, the agent setup
    with the rendered configuration, the installation of Python for the
    platform, the upload of the log generator, its start command and, off
    Windows, the sleep and the read of the debug log; then [cancel] and the
    cleanup. *)
Theorem success_means_every_step_succeeded :
  forall (W : Type) (X : Externals W) (g : Vars) (w : W),
    exit X g w = 0 ->
    exists (d : Duration) (vm : VM) (installed started read : CommandOutput),
      ParseDuration (float64_fracNanos X) (ttl g) = inl d /\
      calls X g w =
        ([EvCreateInstance runContext (vmOptions g d) (inl vm);
          EvSetupOpsAgent runContext vm
            (config (logPath g) "/tmp/log_generator.log") None]
         ++ (if gce_IsWindows X (vm_Platform vm)
             then [EvRunRemotely runContext vm EmptyString installPython
                     (inl installed)]
             else [EvInstallPackages runContext vm ["python3"] None])
         ++ [EvUploadContent runContext vm (logGeneratorSource g)
               (logGeneratorPath g) None;
             EvRunRemotely runContext vm EmptyString
               (startLogGenerator (gce_IsWindows X (vm_Platform vm))
                  (logGeneratorPath g) (logSizeInBytes g) (logRate g)
                  (logPath g) "/tmp/log_generator.log")
               (inl started)]
         ++ (if gce_IsWindows X (vm_Platform vm)
             then []
             else [EvSleep (5 * Second);
                   EvRunRemotely runContext vm EmptyString
                     "cat /tmp/log_generator.log" (inl read)])
         ++ [EvCancel; EvCleanupKeysOrDie true])%list.
Proof.
  intros W X g w.
  run_cases; intros H; try discriminate H.
  all: match goal with
       | Hw : gce_IsWindows _ (vm_Platform ?vm) = _,
         H1 : gce_RunRemotely _ _ _ _ _ _ _ = (inl ?oa, _),
         H2 : gce_RunRemotely _ _ _ _ _ _ _ = (inl ?ob, _)
         |- exists d : Duration, _ =>
           eexists; exists vm;
           first [ exists oa, ob, oa; rewrite Hw; split; reflexivity
                 | exists oa, oa, ob; rewrite Hw; split; reflexivity ]
       end.
Qed.

Lemma success_means_every_step_succeeded_witness :
  exists (d : Duration) (vm : VM) (installed started read : CommandOutput),
    ParseDuration (float64_fracNanos Sample.granting) (ttl Sample.vars) = inl d /\
    calls Sample.granting Sample.vars [] =
      ([EvCreateInstance runContext (vmOptions Sample.vars d) (inl vm);
        EvSetupOpsAgent runContext vm
          (config (logPath Sample.vars) "/tmp/log_generator.log") None]
       ++ (if gce_IsWindows Sample.granting (vm_Platform vm)
           then [EvRunRemotely runContext vm EmptyString installPython
                   (inl installed)]
           else [EvInstallPackages runContext vm ["python3"] None])
       ++ [EvUploadContent runContext vm (logGeneratorSource Sample.vars)
             (logGeneratorPath Sample.vars) None;
           EvRunRemotely runContext vm EmptyString
             (startLogGenerator (gce_IsWindows Sample.granting (vm_Platform vm))
                (logGeneratorPath Sample.vars) (logSizeInBytes Sample.vars)
                (logRate Sample.vars) (logPath Sample.vars)
                "/tmp/log_generator.log")
             (inl started)]
       ++ (if gce_IsWindows Sample.granting (vm_Platform vm)
           then []
           else [EvSleep (5 * Second);
                 EvRunRemotely runContext vm EmptyString
                   "cat /tmp/log_generator.log" (inl read)])
       ++ [EvCancel; EvCleanupKeysOrDie true])%list.
Proof.
  apply (success_means_every_step_succeeded _ Sample.granting Sample.vars []).
  vm_compute. reflexivity.
Defined.

(** X8: the commands a run sends are fixed by the platform of the virtual
    machine.  On Windows: the Python installation script and the
    [Invoke-WmiMethod] start command; elsewhere: the [nohup] start command
    and the [cat] of the debug log; always with an empty standard input.
    [agents.InstallPackages] is called off Windows only, for the one
    package [python3]. *)
Theorem commands_by_platform :
  forall (W : Type) (X : Externals W) (g : Vars) (w : W),
    (forall ctx vm stdin cmd r,
        In (EvRunRemotely ctx vm stdin cmd r) (calls X g w) ->
        stdin = EmptyString /\
        if gce_IsWindows X (vm_Platform vm)
        then cmd = installPython \/
             cmd = startLogGenerator true (logGeneratorPath g) (logSizeInBytes g)
                     (logRate g) (logPath g) "/tmp/log_generator.log"
        else cmd = startLogGenerator false (logGeneratorPath g) (logSizeInBytes g)
                     (logRate g) (logPath g) "/tmp/log_generator.log" \/
             cmd = "cat /tmp/log_generator.log") /\
    (forall ctx vm pkgs r,
        In (EvInstallPackages ctx vm pkgs r) (calls X g w) ->
        gce_IsWindows X (vm_Platform vm) = false /\ pkgs = ["python3"]).
Proof.
  intros W X g w. split.
  - intros ctx vm stdin cmd r.
    run_cases; cbn [In]; intros H;
      repeat (destruct H as [H | H]; [try discriminate H |]);
      try contradiction;
      injection H as <- <- <- <- <-;
      (split; [reflexivity |]);
      try congruence; auto.
  - intros ctx vm pkgs r.
    run_cases; cbn [In]; intros H;
      repeat (destruct H as [H | H]; [try discriminate H |]);
      try contradiction;
      injection H as <- <- <- <-; try congruence; auto.
Qed.

Lemma commands_by_platform_witness :
  (EmptyString = EmptyString /\
   if gce_IsWindows Sample.granting (vm_Platform Sample.debian)
   then "cat /tmp/log_generator.log" = installPython \/
        "cat /tmp/log_generator.log" =
          startLogGenerator true (logGeneratorPath Sample.vars)
            (logSizeInBytes Sample.vars) (logRate Sample.vars)
            (logPath Sample.vars) "/tmp/log_generator.log"
   else "cat /tmp/log_generator.log" =
          startLogGenerator false (logGeneratorPath Sample.vars)
            (logSizeInBytes Sample.vars) (logRate Sample.vars)
            (logPath Sample.vars) "/tmp/log_generator.log" \/
        "cat /tmp/log_generator.log" = "cat /tmp/log_generator.log") /\
  (gce_IsWindows Sample.granting (vm_Platform Sample.debian) = false /\
   ["python3"] = ["python3"]).
Proof.
  split.
  - apply (proj1 (commands_by_platform _ Sample.granting Sample.vars [])
             runContext Sample.debian EmptyString "cat /tmp/log_generator.log"
             (inl Sample.silent)).
    vm_compute. do 6 right. left. reflexivity.
  - apply (proj2 (commands_by_platform _ Sample.granting Sample.vars [])
             runContext Sample.debian ["python3"] None).
    vm_compute. right. right. left. reflexivity.
Defined.

(** X9: the launcher sleeps at most once in a run, only off Windows and
    only for five seconds: the sleep is the sixth call, and the fifth, the
    call before it, is the POSIX start command of the log generator, which
    returned without error. *)
Theorem sleep_only_after_posix_launch :
  forall (W : Type) (X : Externals W) (g : Vars) (w : W) (d : Duration),
    In (EvSleep d) (calls X g w) ->
    d = 5 * Second /\
    count isSleep (calls X g w) = 1%nat /\
    exists (vm : VM) (out : CommandOutput),
      gce_IsWindows X (vm_Platform vm) = false /\
      nth_error (calls X g w) 4 =
        Some (EvRunRemotely runContext vm EmptyString
                (startLogGenerator false (logGeneratorPath g)
                   (logSizeInBytes g) (logRate g) (logPath g)
                   "/tmp/log_generator.log")
                (inl out)) /\
      nth_error (calls X g w) 5 = Some (EvSleep (5 * Second)).
Proof.
  intros W X g w d.
  run_cases; cbn [In]; intros H;
    repeat (destruct H as [H | H]; [try discriminate H |]);
    try contradiction;
    injection H as <-;
    (split; [reflexivity |]); (split; [reflexivity |]);
    do 2 eexists; (split; [eassumption |]);
    split; reflexivity.
Qed.

Lemma sleep_only_after_posix_launch_witness :
  5 * Second = 5 * Second /\
  count isSleep (calls Sample.granting Sample.vars []) = 1%nat /\
  exists (vm : VM) (out : CommandOutput),
    gce_IsWindows Sample.granting (vm_Platform vm) = false /\
    nth_error (calls Sample.granting Sample.vars []) 4 =
      Some (EvRunRemotely runContext vm EmptyString
              (startLogGenerator false (logGeneratorPath Sample.vars)
                 (logSizeInBytes Sample.vars) (logRate Sample.vars)
                 (logPath Sample.vars) "/tmp/log_generator.log")
              (inl out)) /\
    nth_error (calls Sample.granting Sample.vars []) 5 =
      Some (EvSleep (5 * Second)).
Proof.
  apply (sleep_only_after_posix_launch _ Sample.granting Sample.vars []
           (5 * Second)).
  vm_compute. do 5 right. left. reflexivity.
Defined.

(** ** Paths shared by the steps *)

Lemma start_runs_the_generator_path (windows : bool) (p sz rt lp dbg : string) :
  contains ((if windows then "python.exe " else "python3 ") ++ p ++ " ")
    (startLogGenerator windows p sz rt lp dbg) = true.
Proof.
  destruct windows.
  - apply (contains_split _
             ("Invoke-WmiMethod -ComputerName . -Class Win32_Process -Name Create -ArgumentList "
              ++ dq ++ "$env:SystemDrive" ++ bs ++ "Python" ++ bs)
             ("python.exe " ++ p ++ " ")
             ("--log-size-in-bytes=" ++ sz ++ " --log-rate=" ++ rt
              ++ " --log-write-type=file --file-path=" ++ lp ++ dq)).
    rewrite startLogGenerator_windows, !append_assoc. reflexivity.
  - apply (contains_split _ "nohup "
             ("python3 " ++ p ++ " ")
             (bs ++ nl ++ "  --log-size-in-bytes=" ++ dq ++ sz
              ++ (dq ++ " " ++ bs ++ nl ++ "  --log-rate=" ++ dq) ++ rt
              ++ (dq ++ " " ++ bs ++ nl ++ "  --log-write-type=file " ++ bs
                  ++ nl ++ "  --file-path=" ++ dq) ++ lp
              ++ (dq ++ " " ++ bs ++ nl ++ "  &> ") ++ dbg ++ " &" ++ nl)).
    rewrite startLogGenerator_posix, !append_assoc. reflexivity.
Qed.

Lemma start_writes_the_log_path (windows : bool) (p sz rt lp dbg : string) :
  contains ("--file-path=" ++ (if windows then EmptyString else dq) ++ lp ++ dq)
    (startLogGenerator windows p sz rt lp dbg) = true.
Proof.
  destruct windows.
  - apply (contains_split _
             (("Invoke-WmiMethod -ComputerName . -Class Win32_Process -Name Create -ArgumentList "
               ++ dq ++ "$env:SystemDrive" ++ bs ++ "Python" ++ bs
               ++ "python.exe ") ++ p ++ " --log-size-in-bytes=" ++ sz
              ++ " --log-rate=" ++ rt ++ " --log-write-type=file ")
             ("--file-path=" ++ EmptyString ++ lp ++ dq) EmptyString).
    rewrite startLogGenerator_windows, !append_assoc, !append_nil_r. reflexivity.
  - apply (contains_split _
             ("nohup python3 " ++ p
              ++ (" " ++ bs ++ nl ++ "  --log-size-in-bytes=" ++ dq) ++ sz
              ++ (dq ++ " " ++ bs ++ nl ++ "  --log-rate=" ++ dq) ++ rt
              ++ (dq ++ " " ++ bs ++ nl ++ "  --log-write-type=file " ++ bs
                  ++ nl ++ "  "))
             ("--file-path=" ++ dq ++ lp ++ dq)
             (" " ++ bs ++ nl ++ "  &> " ++ dbg ++ " &" ++ nl)).
    rewrite startLogGenerator_posix, !append_assoc. reflexivity.
Qed.

Lemma config_tails (lp dbg : string) :
  contains ("      - " ++ lp ++ nl) (config lp dbg) = true /\
  contains ("      - " ++ dbg ++ nl) (config lp dbg) = true.
Proof.
  split.
  - apply (contains_split _
             (unlines
                [ "logging:"; "  receivers:"; "    mylog_source:";
                  "      type: files"; "      include_paths:" ])
             ("      - " ++ lp ++ nl)
             (unlines
                [ "    generator_debug_logs:"; "      type: files";
                  "      include_paths:" ] ++ "      - " ++ dbg
              ++ nl ++ unlines
                         [ "  exporters:"; "    google:";
                           "      type: google_cloud_logging"; "  service:";
                           "    pipelines:"; "      my_pipeline:";
                           "        receivers:"; "        - mylog_source";
                           "        - generator_debug_logs";
                           "        exporters: [google]" ])).
    rewrite config_operands, !append_assoc. reflexivity.
  - apply (contains_split _
             (unlines
                [ "logging:"; "  receivers:"; "    mylog_source:";
                  "      type: files"; "      include_paths:" ]
              ++ "      - " ++ lp ++ nl
              ++ unlines
                   [ "    generator_debug_logs:"; "      type: files";
                     "      include_paths:" ])
             ("      - " ++ dbg ++ nl)
             (unlines
                [ "  exporters:"; "    google:";
                  "      type: google_cloud_logging"; "  service:";
                  "    pipelines:"; "      my_pipeline:";
                  "        receivers:"; "        - mylog_source";
                  "        - generator_debug_logs";
                  "        exporters: [google]" ])).
    rewrite config_operands, !append_assoc. reflexivity.
Qed.

Lemma start_redirects_to_the_debug_log (p sz rt lp dbg : string) :
  hasSuffix (" &> " ++ dbg ++ " &" ++ nl)
    (startLogGenerator false p sz rt lp dbg) = true.
Proof.
  replace (startLogGenerator false p sz rt lp dbg)
    with (("nohup python3 " ++ p
           ++ (" " ++ bs ++ nl ++ "  --log-size-in-bytes=" ++ dq) ++ sz
           ++ (dq ++ " " ++ bs ++ nl ++ "  --log-rate=" ++ dq) ++ rt
           ++ (dq ++ " " ++ bs ++ nl ++ "  --log-write-type=file " ++ bs
               ++ nl ++ "  --file-path=" ++ dq) ++ lp
           ++ (dq ++ " " ++ bs ++ nl ++ " "))
          ++ (" &> " ++ dbg ++ " &" ++ nl)).
  - apply hasSuffix_append.
  - rewrite startLogGenerator_posix, !append_assoc. reflexivity.
Qed.

(** X10: the steps of a run agree on their paths.  The interpreter is
    started on the path the log generator was uploaded to; the path the
    agent is configured to tail is the [--file-path] the generator writes
    to; and off Windows the debug log the agent also tails is the file the
    start command redirects to. *)
Theorem paths_agree_across_steps :
  forall (W : Type) (X : Externals W) (g : Vars) (w : W)
         (vm : VM) (cfg content path cmd : string)
         (r1 r3 : option error) (r4 : result CommandOutput),
    nth_error (calls X g w) 1 = Some (EvSetupOpsAgent runContext vm cfg r1) ->
    nth_error (calls X g w) 3 =
      Some (EvUploadContent runContext vm content path r3) ->
    nth_error (calls X g w) 4 =
      Some (EvRunRemotely runContext vm EmptyString cmd r4) ->
    content = logGeneratorSource g /\
    contains
      ((if gce_IsWindows X (vm_Platform vm) then "python.exe " else "python3 ")
       ++ path ++ " ") cmd = true /\
    contains ("      - " ++ logPath g ++ nl) cfg = true /\
    contains
      ("--file-path="
       ++ (if gce_IsWindows X (vm_Platform vm) then EmptyString else dq)
       ++ logPath g ++ dq) cmd = true /\
    (gce_IsWindows X (vm_Platform vm) = false ->
     contains ("      - " ++ "/tmp/log_generator.log" ++ nl) cfg = true /\
     hasSuffix (" &> " ++ "/tmp/log_generator.log" ++ " &" ++ nl) cmd = true).
Proof.
  intros W X g w vm cfg content path cmd r1 r3 r4 H1 H3 H4.
  assert (Hshape :
    cfg = config (logPath g) "/tmp/log_generator.log" /\
    content = logGeneratorSource g /\
    path = logGeneratorPath g /\
    cmd = startLogGenerator (gce_IsWindows X (vm_Platform vm))
            (logGeneratorPath g) (logSizeInBytes g) (logRate g) (logPath g)
            "/tmp/log_generator.log").
  { revert H1 H3 H4. clear.
    run_cases; cbn [nth_error]; intros H1 H3 H4;
      try discriminate H1; try discriminate H3; try discriminate H4;
      injection H1 as ? ? ?; injection H3 as ? ? ? ?; injection H4 as ? ? ?;
      subst; try congruence; repeat split. }
  destruct Hshape as (-> & -> & -> & ->).
  split; [reflexivity |].
  split; [apply start_runs_the_generator_path |].
  split; [apply config_tails |].
  split; [apply start_writes_the_log_path |].
  intros Hposix. rewrite Hposix.
  split; [apply config_tails |].
  apply start_redirects_to_the_debug_log.
Qed.

Lemma paths_agree_across_steps_witness :
  logGeneratorSource Sample.vars = logGeneratorSource Sample.vars /\
  contains
    ((if gce_IsWindows Sample.granting (vm_Platform Sample.debian)
      then "python.exe " else "python3 ")
     ++ "/log_generator.py" ++ " ")
    (startLogGenerator false "/log_generator.py" "1000" "1000" "/tmp/tail_file"
       "/tmp/log_generator.log") = true /\
  contains ("      - " ++ logPath Sample.vars ++ nl)
    (config "/tmp/tail_file" "/tmp/log_generator.log") = true /\
  contains
    ("--file-path="
     ++ (if gce_IsWindows Sample.granting (vm_Platform Sample.debian)
         then EmptyString else dq)
     ++ logPath Sample.vars ++ dq)
    (startLogGenerator false "/log_generator.py" "1000" "1000" "/tmp/tail_file"
       "/tmp/log_generator.log") = true /\
  (gce_IsWindows Sample.granting (vm_Platform Sample.debian) = false ->
   contains ("      - " ++ "/tmp/log_generator.log" ++ nl)
     (config "/tmp/tail_file" "/tmp/log_generator.log") = true /\
   hasSuffix (" &> " ++ "/tmp/log_generator.log" ++ " &" ++ nl)
     (startLogGenerator false "/log_generator.py" "1000" "1000" "/tmp/tail_file"
        "/tmp/log_generator.log") = true).
Proof.
  apply (paths_agree_across_steps _ Sample.granting Sample.vars []
           Sample.debian _ _ _ _ None None (inl Sample.silent));
    vm_compute; reflexivity.
Defined.

(** ** The TTL label, further *)

Lemma to_int64_range (z : Z) : - 2 ^ 63 <= to_int64 z < 2 ^ 63.
Proof.
  unfold to_int64.
  pose proof (Z.mod_pos_bound (z + 2 ^ 63) (2 ^ 64) eq_refl). lia.
Qed.

Lemma ParseDuration_range (frac : Z -> Z -> Z -> Z) (s : string) (d : Duration) :
  ParseDuration frac s = inl d -> - 2 ^ 63 <= d < 2 ^ 63.
Proof.
  unfold ParseDuration.
  destruct (match s with
            | String c rest =>
                if (Ascii.eqb c "-" || Ascii.eqb c "+")%bool
                then (Ascii.eqb c "-", rest) else (false, s)
            | EmptyString => (false, s)
            end) as [neg s'].
  destruct (String.eqb s' "0"); [intros [= <-]; lia |].
  destruct (String.eqb s' EmptyString); [discriminate |].
  destruct (parseTerms frac _ s s' 0) as [[m|e]|]; try discriminate.
  destruct neg; [intros [= <-]; apply to_int64_range |].
  destruct (m >? 2 ^ 63 - 1); [discriminate |].
  intros [= <-]. apply to_int64_range.
Qed.

(** X11: the TTL label of every provisioning request is the decimal text
    of an integer between -153722867 and 153722867, so the conversion
    [int(parsedTTL / time.Minute)] loses nothing, even where [int] has 32
    bits. *)
Theorem ttl_label_fits_any_int :
  forall (W : Type) (X : Externals W) (g : Vars) (w : W)
         (ctx : Context) (options : VMOptions) (r : result VM),
    In (EvCreateInstance ctx options r) (calls X g w) ->
    exists q : Z,
      Labels options = [("ttl", Itoa q)] /\
      - 153722867 <= q <= 153722867 /\
      - 2 ^ 31 <= q < 2 ^ 31.
Proof.
  intros W X g w ctx options r.
  run_cases; cbn [In]; intros H;
    repeat (destruct H as [H | H]; [try discriminate H |]);
    try contradiction;
    injection H as _ <- _;
    match goal with
    | HT : ParseDuration _ _ = inl ?d |- _ =>
        exists (Z.quot d Minute); split; [reflexivity |];
        apply ParseDuration_range in HT;
        assert (Hlo : Z.quot (- 2 ^ 63) Minute <= Z.quot d Minute)
          by (apply Z.quot_le_mono; [reflexivity | lia]);
        assert (Hhi : Z.quot d Minute <= Z.quot (2 ^ 63 - 1) Minute)
          by (apply Z.quot_le_mono; [reflexivity | lia]);
        change (Z.quot (- 2 ^ 63) Minute) with (- 153722867) in Hlo;
        change (Z.quot (2 ^ 63 - 1) Minute) with 153722867 in Hhi;
        lia
    end.
Qed.

Lemma ttl_label_fits_any_int_witness :
  exists q : Z,
    Labels (vmOptions Sample.vars (100 * Minute)) = [("ttl", Itoa q)] /\
    - 153722867 <= q <= 153722867 /\
    - 2 ^ 31 <= q < 2 ^ 31.
Proof.
  apply (ttl_label_fits_any_int _ Sample.granting Sample.vars [] runContext
           (vmOptions Sample.vars (100 * Minute)) (inl Sample.debian)).
  vm_compute. left. reflexivity.
Defined.

(** ** Decimal numerals: what strconv.Itoa writes, time.ParseDuration reads *)

Lemma horner_ge (d : Decimal.uint) : forall x, 0 <= x -> x <= horner x d.
Proof.
  induction d; intros x Hx; cbn [horner]; try lia;
    (etransitivity; [| apply IHd; lia]); lia.
Qed.

Lemma of_uint_acc_horner (d : Decimal.uint) :
  forall acc, Zpos (Pos.of_uint_acc d acc) = horner (Zpos acc) d.
Proof.
  induction d; intros acc; cbn [Pos.of_uint_acc horner];
    [reflexivity | rewrite IHd; f_equal; lia ..].
Qed.

Lemma of_uint_horner (d : Decimal.uint) : Z.of_N (Pos.of_uint d) = horner 0 d.
Proof.
  induction d; cbn [Pos.of_uint horner Z.of_N];
    [reflexivity | exact IHd | rewrite of_uint_acc_horner; reflexivity ..].
Qed.

Lemma leadingInt_from_numeral (d : Decimal.uint) :
  forall (x : Z) (rest : string),
    0 <= x ->
    horner x d <= 2 ^ 63 ->
    noLeadingDigit rest = true ->
    leadingInt_from x (NilEmpty.string_of_uint d ++ rest) = Some (horner x d, rest).
Proof.
  assert (Hstep : forall (c : ascii) (k x : Z) (l : Decimal.uint) (rest : string),
             isDigit c = true -> digitVal c = k -> 0 <= k <= 9 ->
             (forall y, 0 <= y -> horner y l <= 2 ^ 63 ->
                        leadingInt_from y (NilEmpty.string_of_uint l ++ rest)
                        = Some (horner y l, rest)) ->
             0 <= x -> horner (x * 10 + k) l <= 2 ^ 63 ->
             leadingInt_from x (String c (NilEmpty.string_of_uint l ++ rest))
             = Some (horner (x * 10 + k) l, rest)).
  { intros c k x l rest Hc Hk Hk9 IH Hx Hb.
    cbn [leadingInt_from]. rewrite Hc, Hk.
    pose proof (horner_ge l (x * 10 + k) ltac:(lia)) as Hge.
    assert (Hx' : x <= 2 ^ 63 / 10).
    { change (2 ^ 63 / 10) with 922337203685477580.
      change (2 ^ 63) with 9223372036854775808 in *. lia. }
    destruct (x >? 2 ^ 63 / 10) eqn:E; [apply Z.gtb_lt in E; lia |].
    assert (Hw : wrap64 (x * 10 + k) = x * 10 + k).
    { unfold wrap64. apply Z.mod_small.
      change (2 ^ 63) with 9223372036854775808 in *.
      change (2 ^ 64) with 18446744073709551616. lia. }
    cbv zeta. rewrite Hw.
    destruct (x * 10 + k >? 2 ^ 63) eqn:E2; [apply Z.gtb_lt in E2; lia |].
    apply IH; [lia | exact Hb]. }
  induction d; intros x rest Hx Hb Hrest; cbn [NilEmpty.string_of_uint horner append] in *.
  - destruct rest as [|c rest]; [reflexivity |].
    cbn [noLeadingDigit] in Hrest. cbn [leadingInt_from].
    destruct (isDigit c); [discriminate Hrest | reflexivity].
  - apply Hstep; [reflexivity | reflexivity | lia | | exact Hx | exact Hb].
    intros y Hy Hyb. now apply IHd.
  - apply Hstep; [reflexivity | reflexivity | lia | | exact Hx | exact Hb].
    intros y Hy Hyb. now apply IHd.
  - apply Hstep; [reflexivity | reflexivity | lia | | exact Hx | exact Hb].
    intros y Hy Hyb. now apply IHd.
  - apply Hstep; [reflexivity | reflexivity | lia | | exact Hx | exact Hb].
    intros y Hy Hyb. now apply IHd.
  - apply Hstep; [reflexivity | reflexivity | lia | | exact Hx | exact Hb].
    intros y Hy Hyb. now apply IHd.
  - apply Hstep; [reflexivity | reflexivity | lia | | exact Hx | exact Hb].
    intros y Hy Hyb. now apply IHd.
  - apply Hstep; [reflexivity | reflexivity | lia | | exact Hx | exact Hb].
    intros y Hy Hyb. now apply IHd.
  - apply Hstep; [reflexivity | reflexivity | lia | | exact Hx | exact Hb].
    intros y Hy Hyb. now apply IHd.
  - apply Hstep; [reflexivity | reflexivity | lia | | exact Hx | exact Hb].
    intros y Hy Hyb. now apply IHd.
  - apply Hstep; [reflexivity | reflexivity | lia | | exact Hx | exact Hb].
    intros y Hy Hyb. now apply IHd.
Qed.

(** The numeral [strconv.Itoa] writes for a number that is not negative. *)
Lemma Itoa_numeral (n : Z) :
  0 <= n ->
  exists d : Decimal.uint,
    Itoa n = NilEmpty.string_of_uint d /\ horner 0 d = n /\ d <> Decimal.Nil.
Proof.
  intros Hn. destruct n as [|p|p]; [| | lia].
  - exists (Decimal.D0 Decimal.Nil). repeat split. discriminate.
  - exists (Pos.to_uint p).
    pose proof (DecimalPos.Unsigned.to_uint_nonnil p) as Hnil.
    split; [| split; [| exact Hnil]].
    + unfold Itoa. cbn [Z.to_int NilZero.string_of_int NilZero.string_of_uint].
      destruct (Pos.to_uint p); [now elim Hnil | reflexivity ..].
    + rewrite <- of_uint_horner, DecimalPos.Unsigned.of_to. reflexivity.
Qed.

(** [leadingInt] reads back what [strconv.Itoa] wrote. *)
Lemma leadingInt_Itoa (n : Z) (rest : string) :
  0 <= n <= 2 ^ 63 ->
  noLeadingDigit rest = true ->
  leadingInt (Itoa n ++ rest) = Some (n, rest).
Proof.
  intros Hn Hrest.
  destruct (Itoa_numeral n ltac:(lia)) as (d & -> & Hd & _).
  unfold leadingInt. rewrite leadingInt_from_numeral; [now rewrite Hd | lia | lia | exact Hrest].
Qed.

Lemma to_int64_small (z : Z) : 0 <= z < 2 ^ 63 -> to_int64 z = z.
Proof.
  intros Hz. unfold to_int64.
  rewrite Z.mod_small; [lia |].
  change (2 ^ 64) with (2 * 2 ^ 63). lia.
Qed.

Lemma digit_is_no_sign (c : ascii) :
  isDigit c = true ->
  Ascii.eqb c "-" = false /\ Ascii.eqb c "+" = false /\ Ascii.eqb c "." = false.
Proof.
  destruct c as [[] [] [] [] [] [] [] []]; cbv; intros H;
    try discriminate H; repeat split.
Qed.

Lemma numeral_head (d : Decimal.uint) :
  d <> Decimal.Nil ->
  exists (c : ascii) (r : string),
    NilEmpty.string_of_uint d = String c r /\ isDigit c = true.
Proof.
  destruct d; intros Hd; [now elim Hd | do 2 eexists; split; reflexivity ..].
Qed.

(** One iteration of the loop of [time.ParseDuration] over a term that is
    a whole number [v] and a unit [u] worth [k] nanoseconds. *)
Lemma parseTerms_whole_term (frac : Z -> Z -> Z -> Z) (fuel : nat)
    (orig : string) (c0 : ascii) (s0 : string) (v : Z) (cu : ascii)
    (ru rest : string) (k d : Z) :
  isDigit c0 = true ->
  leadingInt (String c0 s0) = Some (v, String cu (ru ++ rest)) ->
  (String.length (String c0 s0) =? String.length (String cu (ru ++ rest)))%nat
    = false ->
  Ascii.eqb cu "." = false ->
  spanUnit (String cu (ru ++ rest)) = (String cu ru, rest) ->
  unitMap (String cu ru) = Some k ->
  0 <= v <= 2 ^ 63 / k ->
  0 < k ->
  0 <= d ->
  d + v * k <= 2 ^ 63 ->
  parseTerms frac (S fuel) orig (String c0 s0) d
    = parseTerms frac fuel orig rest (d + v * k).
Proof.
  intros Hc0 Hint Hlen Hdot Hspan Hunit Hv Hk Hd Hsum.
  cbn [parseTerms]. rewrite Hc0, orb_true_r. cbn [negb].
  rewrite Hint, Hlen. cbn [negb andb].
  assert (Hmatch :
            match String cu (ru ++ rest) with
            | String "." s1' =>
                let '(f, scale, s2) := leadingFraction s1' in
                (f, scale, s2,
                 negb (String.length s1' =? String.length s2)%nat)
            | _ => (0, 1, String cu (ru ++ rest), false)
            end = (0, 1, String cu (ru ++ rest), false)).
  { destruct cu as [[] [] [] [] [] [] [] []]; try reflexivity.
    discriminate Hdot. }
  rewrite Hmatch, Hspan. cbn [String.length Nat.eqb].
  rewrite Hunit.
  destruct (v >? 2 ^ 63 / k) eqn:E; [apply Z.gtb_lt in E; lia |].
  assert (Hvk : 0 <= v * k <= 2 ^ 63) by nia.
  assert (Hw1 : wrap64 (v * k) = v * k).
  { unfold wrap64. apply Z.mod_small. change (2 ^ 64) with (2 * 2 ^ 63). lia. }
  assert (Hw2 : wrap64 (d + v * k) = d + v * k).
  { unfold wrap64. apply Z.mod_small. change (2 ^ 64) with (2 * 2 ^ 63). lia. }
  cbv zeta. change (0 >? 0) with false. cbn [andb]. rewrite Hw1, Hw2.
  destruct (d + v * k >? 2 ^ 63) eqn:E2; [apply Z.gtb_lt in E2; lia |].
  reflexivity.
Qed.

(** The loop of [time.ParseDuration] over a whole number and one unit. *)
Lemma parseTerms_whole (frac : Z -> Z -> Z -> Z) (orig : string) (n : Z)
    (cu : ascii) (ru : string) (k : Z) :
  0 <= n ->
  isDigit cu = false ->
  Ascii.eqb cu "." = false ->
  spanUnit (String cu ru) = (String cu ru, EmptyString) ->
  unitMap (String cu ru) = Some k ->
  0 < k ->
  n <= 2 ^ 63 / k ->
  n * k < 2 ^ 63 ->
  exists (c : ascii) (r : string),
    Itoa n ++ String cu ru = String c (r ++ String cu ru) /\
    isDigit c = true /\
    parseTerms frac (S (String.length (Itoa n ++ String cu ru))) orig
      (Itoa n ++ String cu ru) 0 = Some (inl (n * k)).
Proof.
  intros Hn Hcu Hdot Hspan Hunit Hk Hnk Hlt.
  assert (Hn63 : n <= 2 ^ 63).
  { pose proof (Z.div_le_upper_bound (2 ^ 63) k (2 ^ 63) Hk) as Hub.
    assert (2 ^ 63 / k <= 2 ^ 63) by (apply Hub; nia). lia. }
  pose proof (leadingInt_Itoa n (String cu ru) (conj Hn Hn63)) as Hint.
  cbn [noLeadingDigit] in Hint. rewrite Hcu in Hint. specialize (Hint eq_refl).
  destruct (Itoa_numeral n Hn) as (dn & HI & _ & Hnil).
  destruct (numeral_head dn Hnil) as (c & r & Hhead & Hc).
  rewrite Hhead in HI. rewrite HI in *. clear HI Hhead dn Hnil.
  cbn [append] in *.
  exists c, r. split; [reflexivity |]. split; [exact Hc |].
  rewrite (parseTerms_whole_term frac _ _ c (r ++ String cu ru) n cu ru
             EmptyString k 0 Hc).
  - cbn [String.length parseTerms]. reflexivity.
  - rewrite append_nil_r. exact Hint.
  - rewrite append_nil_r. cbn [String.length]. apply Nat.eqb_neq.
    rewrite length_append. cbn [String.length]. lia.
  - exact Hdot.
  - rewrite append_nil_r. exact Hspan.
  - exact Hunit.
  - lia.
  - exact Hk.
  - lia.
  - lia.
Qed.

Lemma not_the_numeral_zero (c : ascii) (r : string) (cu : ascii) (ru : string) :
  String.eqb (String c (r ++ String cu ru)) "0" = false.
Proof.
  cbn [String.eqb]. destruct (Ascii.eqb c "0"); [| reflexivity].
  destruct r; reflexivity.
Qed.

(** A TTL written as an optional sign, a whole number and one unit. *)
Lemma ParseDuration_whole (frac : Z -> Z -> Z -> Z) (n : Z) (cu : ascii)
    (ru : string) (k : Z) :
  0 <= n ->
  isDigit cu = false ->
  Ascii.eqb cu "." = false ->
  spanUnit (String cu ru) = (String cu ru, EmptyString) ->
  unitMap (String cu ru) = Some k ->
  0 < k ->
  n <= 2 ^ 63 / k ->
  n * k < 2 ^ 63 ->
  ParseDuration frac (Itoa n ++ String cu ru) = inl (n * k) /\
  ParseDuration frac ("+" ++ Itoa n ++ String cu ru) = inl (n * k) /\
  ParseDuration frac ("-" ++ Itoa n ++ String cu ru) = inl (- (n * k)).
Proof.
  intros Hn Hcu Hdot Hspan Hunit Hk Hnk Hlt.
  assert (Hgt : (n * k >? 2 ^ 63 - 1) = false).
  { destruct (n * k >? 2 ^ 63 - 1) eqn:E; [apply Z.gtb_lt in E; lia | reflexivity]. }
  assert (Hpos : to_int64 (n * k) = n * k) by (apply to_int64_small; nia).
  assert (Hneg : to_int64 (- to_int64 (n * k)) = - (n * k)).
  { rewrite Hpos. unfold to_int64.
    rewrite Z.mod_small; [lia |]. change (2 ^ 64) with (2 * 2 ^ 63). nia. }
  split; [| split].
  - destruct (parseTerms_whole frac (Itoa n ++ String cu ru) n cu ru k
                Hn Hcu Hdot Hspan Hunit Hk Hnk Hlt) as (c & r & Hs & Hc & Hp).
    destruct (digit_is_no_sign c Hc) as (Hminus & Hplus & _).
    rewrite Hs in Hp |- *.
    unfold ParseDuration. rewrite Hminus, Hplus. cbn [orb].
    rewrite not_the_numeral_zero. cbn [String.eqb].
    now rewrite Hp, Hgt, Hpos.
  - destruct (parseTerms_whole frac ("+" ++ Itoa n ++ String cu ru) n cu ru k
                Hn Hcu Hdot Hspan Hunit Hk Hnk Hlt) as (c & r & Hs & Hc & Hp).
    cbn [append] in Hp |- *. rewrite Hs in Hp |- *.
    unfold ParseDuration. cbn [Ascii.eqb Bool.eqb orb].
    rewrite not_the_numeral_zero. cbn [String.eqb].
    now rewrite Hp, Hgt, Hpos.
  - destruct (parseTerms_whole frac ("-" ++ Itoa n ++ String cu ru) n cu ru k
                Hn Hcu Hdot Hspan Hunit Hk Hnk Hlt) as (c & r & Hs & Hc & Hp).
    cbn [append] in Hp |- *. rewrite Hs in Hp |- *.
    unfold ParseDuration. cbn [Ascii.eqb Bool.eqb orb].
    rewrite not_the_numeral_zero. cbn [String.eqb].
    now rewrite Hp, Hneg.
Qed.


Lemma parsed_ttl_is_provisioned (W : Type) (X : Externals W) (g : Vars) (w : W)
    (d : Duration) :
  ParseDuration (float64_fracNanos X) (ttl g) = inl d ->
  exists r : result VM,
    nth_error (calls X g w) 0 =
      Some (EvCreateInstance runContext (vmOptions g d) r).
Proof.
  intros HTTL. run_unfold. rewrite HTTL. run_simpl.
  repeat run_case; eexists; reflexivity.
Qed.

(** X12: a TTL written as a whole number of minutes, hours or seconds gives
    the exact label: [Nm] gives N, [Nh] gives 60 N and [Ns] gives N / 60
    rounded down, for every N that [time.ParseDuration] accepts with that
    unit. *)
Theorem whole_ttl_gives_exact_label :
  forall (W : Type) (X : Externals W) (g : Vars) (w : W) (n : Z),
    (0 <= n <= 153722867 ->
     ttl g = Itoa n ++ "m" ->
     exists options r,
       nth_error (calls X g w) 0 = Some (EvCreateInstance runContext options r) /\
       Labels options = [("ttl", Itoa n)]) /\
    (0 <= n <= 2562047 ->
     ttl g = Itoa n ++ "h" ->
     exists options r,
       nth_error (calls X g w) 0 = Some (EvCreateInstance runContext options r) /\
       Labels options = [("ttl", Itoa (60 * n))]) /\
    (0 <= n <= 9223372036 ->
     ttl g = Itoa n ++ "s" ->
     exists options r,
       nth_error (calls X g w) 0 = Some (EvCreateInstance runContext options r) /\
       Labels options = [("ttl", Itoa (n / 60))]).
Proof.
  intros W X g w n. split; [| split]; intros Hn Httl.
  - assert (HP : ParseDuration (float64_fracNanos X) (ttl g) = inl (n * Minute)).
    { rewrite Httl. apply ParseDuration_whole; try reflexivity; try lia.
      - change (2 ^ 63 / Minute) with 153722867. lia.
      - change Minute with 60000000000.
        change (2 ^ 63) with 9223372036854775808. lia. }
    destruct (parsed_ttl_is_provisioned W X g w _ HP) as [r Hr].
    do 2 eexists. split; [exact Hr |].
    cbn [Labels vmOptions]. unfold ttlLabel. do 3 f_equal.
    apply Z.quot_mul. discriminate.
  - assert (HP : ParseDuration (float64_fracNanos X) (ttl g) = inl (n * Hour)).
    { rewrite Httl. apply ParseDuration_whole; try reflexivity; try lia.
      - change (2 ^ 63 / Hour) with 2562047. lia.
      - change Hour with 3600000000000.
        change (2 ^ 63) with 9223372036854775808. lia. }
    destruct (parsed_ttl_is_provisioned W X g w _ HP) as [r Hr].
    do 2 eexists. split; [exact Hr |].
    cbn [Labels vmOptions]. unfold ttlLabel. do 3 f_equal.
    change Hour with (60 * Minute).
    replace (n * (60 * Minute)) with (60 * n * Minute) by ring.
    apply Z.quot_mul. discriminate.
  - assert (HP : ParseDuration (float64_fracNanos X) (ttl g) = inl (n * Second)).
    { rewrite Httl. apply ParseDuration_whole; try reflexivity; try lia.
      - change (2 ^ 63 / Second) with 9223372036. lia.
      - change Second with 1000000000.
        change (2 ^ 63) with 9223372036854775808. lia. }
    destruct (parsed_ttl_is_provisioned W X g w _ HP) as [r Hr].
    do 2 eexists. split; [exact Hr |].
    cbn [Labels vmOptions]. unfold ttlLabel. do 3 f_equal.
    rewrite Z.quot_div_nonneg; [| change Second with 1000000000; lia | reflexivity].
    change Minute with (Second * 60).
    rewrite Z.mul_comm.
    rewrite Z.div_mul_cancel_l; [reflexivity | discriminate | discriminate].
Qed.

Lemma whole_ttl_gives_exact_label_witness :
  exists options r,
    nth_error (calls Sample.granting Sample.vars []) 0 =
      Some (EvCreateInstance runContext options r) /\
    Labels options = [("ttl", Itoa 100)].
Proof.
  apply (proj1 (whole_ttl_gives_exact_label _ Sample.granting Sample.vars [] 100)).
  - lia.
  - reflexivity.
Defined.

(** X13: the sign of the TTL goes into the label: [-Nm] is provisioned
    with the label -N, and [+Nm] with the label N. *)
Theorem signed_ttl_gives_signed_label :
  forall (W : Type) (X : Externals W) (g : Vars) (w : W) (n : Z),
    0 <= n <= 153722867 ->
    (ttl g = "-" ++ Itoa n ++ "m" ->
     exists options r,
       nth_error (calls X g w) 0 = Some (EvCreateInstance runContext options r) /\
       Labels options = [("ttl", Itoa (- n))]) /\
    (ttl g = "+" ++ Itoa n ++ "m" ->
     exists options r,
       nth_error (calls X g w) 0 = Some (EvCreateInstance runContext options r) /\
       Labels options = [("ttl", Itoa n)]).
Proof.
  intros W X g w n Hn.
  assert (HW : ParseDuration (float64_fracNanos X) (Itoa n ++ "m") = inl (n * Minute) /\
               ParseDuration (float64_fracNanos X) ("+" ++ Itoa n ++ "m")
                 = inl (n * Minute) /\
               ParseDuration (float64_fracNanos X) ("-" ++ Itoa n ++ "m")
                 = inl (- (n * Minute))).
  { apply ParseDuration_whole; try reflexivity; try lia.
    - change (2 ^ 63 / Minute) with 153722867. lia.
    - change Minute with 60000000000.
      change (2 ^ 63) with 9223372036854775808. lia. }
  destruct HW as (_ & Hplus & Hminus).
  split; intros Httl.
  - rewrite <- Httl in Hminus.
    destruct (parsed_ttl_is_provisioned W X g w _ Hminus) as [r Hr].
    do 2 eexists. split; [exact Hr |].
    cbn [Labels vmOptions]. unfold ttlLabel. do 3 f_equal.
    rewrite Z.quot_opp_l by discriminate. f_equal.
    apply Z.quot_mul. discriminate.
  - rewrite <- Httl in Hplus.
    destruct (parsed_ttl_is_provisioned W X g w _ Hplus) as [r Hr].
    do 2 eexists. split; [exact Hr |].
    cbn [Labels vmOptions]. unfold ttlLabel. do 3 f_equal.
    apply Z.quot_mul. discriminate.
Qed.

Lemma signed_ttl_gives_signed_label_witness :
  exists options r,
    nth_error (calls Sample.granting (Sample.withTTL "-90m" Sample.vars) []) 0 =
      Some (EvCreateInstance runContext options r) /\
    Labels options = [("ttl", Itoa (- 90))].
Proof.
  apply (proj1 (signed_ttl_gives_signed_label _ Sample.granting
                  (Sample.withTTL "-90m" Sample.vars) [] 90 ltac:(lia))).
  reflexivity.
Defined.



(** One iteration of the loop over a whole number written by
    [strconv.Itoa], a unit, and what follows the unit. *)
Lemma parseTerms_Itoa_term (frac : Z -> Z -> Z -> Z) (fuel : nat)
    (orig : string) (n : Z) (cu : ascii) (ru rest : string) (k d : Z) :
  0 <= n ->
  isDigit cu = false ->
  Ascii.eqb cu "." = false ->
  spanUnit (String cu (ru ++ rest)) = (String cu ru, rest) ->
  unitMap (String cu ru) = Some k ->
  0 < k ->
  n <= 2 ^ 63 / k ->
  0 <= d ->
  d + n * k <= 2 ^ 63 ->
  parseTerms frac (S fuel) orig (Itoa n ++ String cu (ru ++ rest)) d
    = parseTerms frac fuel orig rest (d + n * k).
Proof.
  intros Hn Hcu Hdot Hspan Hunit Hk Hnk Hd Hsum.
  assert (Hn63 : n <= 2 ^ 63).
  { pose proof (Z.div_le_upper_bound (2 ^ 63) k (2 ^ 63) Hk) as Hub.
    assert (2 ^ 63 / k <= 2 ^ 63) by (apply Hub; nia). lia. }
  pose proof (leadingInt_Itoa n (String cu (ru ++ rest)) (conj Hn Hn63)) as Hint.
  cbn [noLeadingDigit] in Hint. rewrite Hcu in Hint. specialize (Hint eq_refl).
  destruct (Itoa_numeral n Hn) as (dn & HI & _ & Hnil).
  destruct (numeral_head dn Hnil) as (c & r & Hhead & Hc).
  rewrite Hhead in HI. rewrite HI in *. clear HI Hhead dn Hnil.
  cbn [append] in *.
  apply (parseTerms_whole_term frac fuel orig c (r ++ String cu (ru ++ rest))
           n cu ru rest k d Hc Hint); try assumption; try lia.
  cbn [String.length]. apply Nat.eqb_neq.
  rewrite length_append. cbn [String.length]. lia.
Qed.

(** The head of the numeral [strconv.Itoa] writes. *)
Lemma Itoa_head (n : Z) :
  0 <= n -> exists (c : ascii) (r : string), Itoa n = String c r /\ isDigit c = true.
Proof.
  intros Hn.
  destruct (Itoa_numeral n Hn) as (dn & HI & _ & Hnil).
  destruct (numeral_head dn Hnil) as (c & r & Hhead & Hc).
  exists c, r. now rewrite HI.
Qed.

(** [time.ParseDuration] on a string that starts with a digit: no sign
    to consume, and not the special case [0]. *)
Lemma ParseDuration_unsigned (frac : Z -> Z -> Z -> Z) (s : string)
    (c : ascii) (r : string) :
  s = String c r ->
  isDigit c = true ->
  String.eqb s "0" = false ->
  ParseDuration frac s =
    match parseTerms frac (S (String.length s)) s s 0 with
    | Some (inl d) =>
        if d >? 2 ^ 63 - 1 then inr (time_invalidDuration s)
        else inl (to_int64 d)
    | Some (inr e) => inr e
    | None => inr (time_invalidDuration s)
    end.
Proof.
  intros -> Hc H0.
  destruct (digit_is_no_sign c Hc) as (Hminus & Hplus & _).
  unfold ParseDuration. rewrite Hminus, Hplus. cbn [orb].
  rewrite H0. reflexivity.
Qed.

(** A TTL of hours and minutes, as in the launcher's documentation. *)
Lemma ParseDuration_hours_minutes (frac : Z -> Z -> Z -> Z) (a b : Z) :
  0 <= a -> 0 <= b -> 60 * a + b <= 153722867 ->
  ParseDuration frac (Itoa a ++ "h" ++ Itoa b ++ "m") = inl (a * Hour + b * Minute).
Proof.
  intros Ha Hb Hab.
  destruct (Itoa_head a Ha) as (ca & ra & HIa & Hca).
  destruct (Itoa_head b Hb) as (cb & rb & HIb & Hcb).
  destruct (digit_is_no_sign ca Hca) as (Hminus & Hplus & _).
  destruct (digit_is_no_sign cb Hcb) as (_ & _ & Hdotb).
  assert (Hstep1 : forall fuel orig,
             parseTerms frac (S fuel) orig (Itoa a ++ "h" ++ Itoa b ++ "m") 0
             = parseTerms frac fuel orig (Itoa b ++ "m") (0 + a * Hour)).
  { intros fuel orig.
    apply (parseTerms_Itoa_term frac fuel orig a "h" EmptyString
             (Itoa b ++ "m") Hour 0); try reflexivity; try ttl_arith.
    rewrite HIb. cbn [append spanUnit]. rewrite Hdotb, Hcb. reflexivity. }
  assert (Hstep2 : forall fuel orig,
             parseTerms frac (S fuel) orig (Itoa b ++ "m") (0 + a * Hour)
             = parseTerms frac fuel orig EmptyString (0 + a * Hour + b * Minute)).
  { intros fuel orig.
    apply (parseTerms_Itoa_term frac fuel orig b "m" EmptyString
             EmptyString Minute (0 + a * Hour)); try reflexivity; ttl_arith. }
  assert (Hlen : (3 <= String.length (Itoa a ++ "h" ++ Itoa b ++ "m"))%nat).
  { rewrite HIa, HIb. cbn [append String.length].
    rewrite !length_append. cbn [String.length]. lia. }
  assert (H0 : String.eqb (Itoa a ++ "h" ++ Itoa b ++ "m") "0" = false).
  { rewrite HIa. cbn [append]. apply not_the_numeral_zero. }
  rewrite (ParseDuration_unsigned frac _ ca (ra ++ "h" ++ Itoa b ++ "m"));
    [| rewrite HIa; reflexivity | exact Hca | exact H0].
  destruct (String.length (Itoa a ++ "h" ++ Itoa b ++ "m")) as [|[|[|m]]];
    try lia.
  rewrite Hstep1, Hstep2. cbn [parseTerms].
  assert (Hsum : 0 <= a * Hour + b * Minute < 2 ^ 63).
  { ttl_arith. }
  change (0 + a * Hour + b * Minute) with (a * Hour + b * Minute).
  destruct (a * Hour + b * Minute >? 2 ^ 63 - 1) eqn:E;
    [apply Z.gtb_lt in E; lia |].
  now rewrite to_int64_small.
Qed.

(** X15: a TTL of hours and minutes, the form the launcher's
    documentation gives ([24h30m]), is provisioned with the label
    60 * hours + minutes. *)
Theorem hours_and_minutes_ttl_label :
  forall (W : Type) (X : Externals W) (g : Vars) (w : W) (a b : Z),
    0 <= a -> 0 <= b -> 60 * a + b <= 153722867 ->
    ttl g = Itoa a ++ "h" ++ Itoa b ++ "m" ->
    exists options r,
      nth_error (calls X g w) 0 = Some (EvCreateInstance runContext options r) /\
      Labels options = [("ttl", Itoa (60 * a + b))].
Proof.
  intros W X g w a b Ha Hb Hab Httl.
  pose proof (ParseDuration_hours_minutes (float64_fracNanos X) a b Ha Hb Hab) as HP.
  rewrite <- Httl in HP.
  destruct (parsed_ttl_is_provisioned W X g w _ HP) as [r Hr].
  do 2 eexists. split; [exact Hr |].
  cbn [Labels vmOptions]. unfold ttlLabel. do 3 f_equal.
  change Hour with (60 * Minute).
  replace (a * (60 * Minute) + b * Minute) with ((60 * a + b) * Minute) by ring.
  apply Z.quot_mul. discriminate.
Qed.

Lemma hours_and_minutes_ttl_label_witness :
  exists options r,
    nth_error (calls Sample.granting (Sample.withTTL "24h30m" Sample.vars) []) 0 =
      Some (EvCreateInstance runContext options r) /\
    Labels options = [("ttl", Itoa (60 * 24 + 30))].
Proof.
  apply (hours_and_minutes_ttl_label _ Sample.granting
           (Sample.withTTL "24h30m" Sample.vars) [] 24 30); try lia.
  reflexivity.
Defined.

(** ** The operands of the start command *)

Lemma start_flags_posix (p sz rt lp dbg : string) :
  contains ("--log-size-in-bytes=" ++ dq ++ sz ++ dq)
    (startLogGenerator false p sz rt lp dbg) = true /\
  contains ("--log-rate=" ++ dq ++ rt ++ dq)
    (startLogGenerator false p sz rt lp dbg) = true.
Proof.
  split.
  - apply (contains_split _
             ("nohup python3 " ++ p ++ " " ++ bs ++ nl ++ "  ")
             ("--log-size-in-bytes=" ++ dq ++ sz ++ dq)
             ((" " ++ bs ++ nl ++ "  --log-rate=" ++ dq) ++ rt
              ++ (dq ++ " " ++ bs ++ nl ++ "  --log-write-type=file " ++ bs
                  ++ nl ++ "  --file-path=" ++ dq) ++ lp
              ++ (dq ++ " " ++ bs ++ nl ++ "  &> ") ++ dbg ++ " &" ++ nl)).
    rewrite startLogGenerator_posix, !append_assoc. reflexivity.
  - apply (contains_split _
             ("nohup python3 " ++ p
              ++ (" " ++ bs ++ nl ++ "  --log-size-in-bytes=" ++ dq) ++ sz
              ++ (dq ++ " " ++ bs ++ nl ++ "  "))
             ("--log-rate=" ++ dq ++ rt ++ dq)
             ((" " ++ bs ++ nl ++ "  --log-write-type=file " ++ bs
               ++ nl ++ "  --file-path=" ++ dq) ++ lp
              ++ (dq ++ " " ++ bs ++ nl ++ "  &> ") ++ dbg ++ " &" ++ nl)).
    rewrite startLogGenerator_posix, !append_assoc. reflexivity.
Qed.

Lemma start_flags_windows (p sz rt lp dbg : string) :
  contains
    (" --log-size-in-bytes=" ++ sz ++ " --log-rate=" ++ rt
     ++ " --log-write-type=file ")
    (startLogGenerator true p sz rt lp dbg) = true.
Proof.
  apply (contains_split _
           (("Invoke-WmiMethod -ComputerName . -Class Win32_Process -Name Create -ArgumentList "
             ++ dq ++ "$env:SystemDrive" ++ bs ++ "Python" ++ bs
             ++ "python.exe ") ++ p)
           (" --log-size-in-bytes=" ++ sz ++ " --log-rate=" ++ rt
            ++ " --log-write-type=file ")
           ("--file-path=" ++ lp ++ dq)).
  rewrite startLogGenerator_windows, !append_assoc. reflexivity.
Qed.

(** X16: the start command carries the environment's values under the
    right flags, whatever they are (empty included): [--log-size-in-bytes]
    is given LOG_SIZE_IN_BYTES and [--log-rate] is given LOG_RATE, in
    double quotes off Windows and bare on Windows. *)
Theorem start_command_carries_rate_and_size :
  forall (W : Type) (X : Externals W) (getenv : string -> string)
         (embedded : string) (w : W)
         (vm : VM) (cmd : string) (r : result CommandOutput),
    nth_error (calls X (initVars getenv embedded) w) 4 =
      Some (EvRunRemotely runContext vm EmptyString cmd r) ->
    if gce_IsWindows X (vm_Platform vm)
    then contains
           (" --log-size-in-bytes=" ++ getenv "LOG_SIZE_IN_BYTES"
            ++ " --log-rate=" ++ getenv "LOG_RATE" ++ " --log-write-type=file ")
           cmd = true
    else contains ("--log-size-in-bytes=" ++ dq ++ getenv "LOG_SIZE_IN_BYTES" ++ dq)
           cmd = true /\
         contains ("--log-rate=" ++ dq ++ getenv "LOG_RATE" ++ dq) cmd = true.
Proof.
  intros W X getenv embedded w vm cmd r H.
  assert (Hcmd :
    cmd = startLogGenerator (gce_IsWindows X (vm_Platform vm))
            "/log_generator.py" (getenv "LOG_SIZE_IN_BYTES") (getenv "LOG_RATE")
            "/tmp/tail_file" "/tmp/log_generator.log").
  { revert H. clear.
    run_cases; cbn [nth_error]; intros H;
      try discriminate H; injection H as ? ? ?; subst;
      try congruence; reflexivity. }
  rewrite Hcmd.
  destruct (gce_IsWindows X (vm_Platform vm)).
  - apply start_flags_windows.
  - apply start_flags_posix.
Qed.

Lemma start_command_carries_rate_and_size_witness :
  if gce_IsWindows Sample.granting (vm_Platform Sample.debian)
  then contains
         (" --log-size-in-bytes=" ++ Sample.getenv "LOG_SIZE_IN_BYTES"
          ++ " --log-rate=" ++ Sample.getenv "LOG_RATE"
          ++ " --log-write-type=file ")
         (startLogGenerator false "/log_generator.py" "1000" "1000"
            "/tmp/tail_file" "/tmp/log_generator.log") = true
  else contains
         ("--log-size-in-bytes=" ++ dq ++ Sample.getenv "LOG_SIZE_IN_BYTES" ++ dq)
         (startLogGenerator false "/log_generator.py" "1000" "1000"
            "/tmp/tail_file" "/tmp/log_generator.log") = true /\
       contains ("--log-rate=" ++ dq ++ Sample.getenv "LOG_RATE" ++ dq)
         (startLogGenerator false "/log_generator.py" "1000" "1000"
            "/tmp/tail_file" "/tmp/log_generator.log") = true.
Proof.
  apply (start_command_carries_rate_and_size _ Sample.granting Sample.getenv
           "print('log generator')" [] Sample.debian _ (inl Sample.silent)).
  vm_compute. reflexivity.
Defined.
